(** * Canary deployment monitor: a shallow embedding of
      [scripts/monitor-canary.py]

    The development follows the Python class [CanaryMonitor] method by
    method.  Conventions of the embedding:

    - Python floats are rationals ([Q]): a rational stands for the float
      that Python reads in it.  Every arithmetic result is put in lowest
      terms ([Qred]), so that a value has one representation, as a float
      has.  Means, differences, ratios and weighted sums are exact; the
      success rate, which the decision computes and compares with a
      threshold of the user, is computed and compared in binary64
      ([round64]).  Infinities and NaN are outside the model.
    - [datetime] values are integers counting microseconds; a [timedelta]
      is a difference of such integers.
    - A dict with a fixed set of keys is a record; the empty dict [{}]
      returned on failure is [None].
    - The object [self] is a record threaded through the methods; a method
      that mutates [self] returns the updated record.
    - The outside world (HTTP replies, elapsed time, operator interrupts)
      is an explicit environment read by the monitoring loop.
    - Python's conversions of numbers to text ([f"{x:.4f}"], [f"{x}"]) are
      an interface ([NumberFormat]); the theorems hold for every
      implementation and one decimal implementation is given to evaluate
      concrete runs.
    - Logging is not modelled. *)

From Stdlib Require Import ZArith QArith Qminmax String List Bool Lia Lqa.
From Stdlib Require Import DecimalString.
Import ListNotations.

Local Open Scope Z_scope.
Local Open Scope Q_scope.
Local Open Scope string_scope.

(** ** Numbers *)

(** [x > y] on Python numbers. *)
Definition Qgtb (x y : Q) : bool := negb (Qle_bool x y).

(** [x >= y] on Python numbers. *)
Definition Qgeb (x y : Q) : bool := Qle_bool y x.

(** The builtin [max(a, b)]: the first argument unless the second is
    strictly greater. *)
Definition py_max (a b : Q) : Q := if Qgtb b a then b else a.

(** The builtin [min(a, b)]: the first argument unless the second is
    strictly smaller. *)
Definition py_min (a b : Q) : Q := if Qgtb a b then b else a.

Definition Qsum (xs : list Q) : Q := fold_right Qplus 0 xs.

(** [statistics.mean]: the exact sum divided by the number of data points;
    it raises [StatisticsError] on an empty sequence, which is [None]. *)
Definition mean (xs : list Q) : option Q :=
  match xs with
  | [] => None
  | _ :: _ => Some (Qred (Qsum xs / inject_Z (Z.of_nat (length xs))))
  end.

(** ** Text *)

(** What the f-strings of the script need from Python's formatting. *)
Class NumberFormat : Type := {
  (** [format(x, ".Nf")]: fixed point with [N] decimals *)
  format_f : nat -> Q -> string;
  (** [str(x)] of a float *)
  str_float : Q -> string
}.

(** [str(n)] of an int. *)
Definition str_int (n : Z) : string := NilZero.string_of_int (Z.to_int n).

(** [sep.join(parts)]. *)
Fixpoint join (sep : string) (parts : list string) : string :=
  match parts with
  | [] => ""
  | [p] => p
  | p :: rest => p ++ sep ++ join sep rest
  end.

(** *** A decimal implementation of [NumberFormat] *)

(** Nearest integer to [n / d] for [0 <= n], [0 < d], ties to even. *)
Definition round_half_even (n d : Z) : Z :=
  let q := (n / d)%Z in
  let r := (2 * (n mod d))%Z in
  if (r <? d)%Z then q
  else if (d <? r)%Z then (q + 1)%Z
  else if Z.even q then q else (q + 1)%Z.

Fixpoint zeros (n : nat) : string :=
  match n with
  | O => ""
  | S k => "0" ++ zeros k
  end.

Definition zero_pad (width : nat) (s : string) : string :=
  zeros (width - String.length s) ++ s.

Definition decimal_fixed (digits : nat) (x : Q) : string :=
  let scale := (10 ^ Z.of_nat digits)%Z in
  let n := round_half_even (Z.abs (Qnum x) * scale) (Zpos (Qden x)) in
  let sign := if (Qnum x <? 0)%Z then "-" else "" in
  let whole := str_int (n / scale) in
  match digits with
  | O => sign ++ whole
  | S _ => sign ++ whole ++ "." ++ zero_pad digits (str_int (n mod scale))
  end.

(** The shortest fixed-point text with at least one decimal that denotes
    [x] exactly, looked for up to [fuel] more decimals; [decimal_fixed]
    with 17 decimals when there is none. *)
Fixpoint decimal_shortest (fuel digits : nat) (x : Q) : string :=
  match fuel with
  | O => decimal_fixed 17 x
  | S fuel' =>
      if ((Qnum x * 10 ^ Z.of_nat digits) mod Zpos (Qden x) =? 0)%Z
      then decimal_fixed digits x
      else decimal_shortest fuel' (S digits) x
  end.

Definition decimal_format : NumberFormat := {|
  format_f := decimal_fixed;
  str_float := decimal_shortest 17 1
|}.

(** ** Binary64 *)

(** The values of binary64 are multiples of [2^-1074]. *)
Definition grid : positive := Pos.pow 2 1074.

(** The binary64 value nearest to [n / d], for [0 <= n] and [0 < d], as
    its numerator over [2^1074]: the fraction is rounded, ties to even, to
    53 significant bits, or to a multiple of [2^-1074] where that is
    coarser. *)
Definition round_to_grid (n d : Z) : Z :=
  let t := (n * Z.pos grid)%Z in
  let s := Z.max 0 (Z.log2 (t / d) - 52) in
  (round_half_even t (d * 2 ^ s) * 2 ^ s)%Z.

(** [float(x)]: the binary64 value nearest to [x], ties to even. *)
Definition round64 (x : Q) : Q :=
  if (Qnum x <? 0)%Z
  then Qred (- round_to_grid (- Qnum x) (Z.pos (Qden x)) # grid)
  else Qred (round_to_grid (Qnum x) (Z.pos (Qden x)) # grid).

(** [x - y] on floats. *)
Definition float_sub (x y : Q) : Q := round64 (round64 x - round64 y).

(** ** Data *)

(** The dict built by [get_direct_metrics]. *)
Record metrics : Type := mkMetrics {
  error_rate : Q;
  p95_latency : Q;
  request_rate : Q;
  cpu_usage : Q;
  memory_usage : Q;
  timestamp : Z
}.

(** [canary_avg] and [stable_avg]. *)
Record averages : Type := mkAverages {
  avg_error_rate : Q;
  avg_p95_latency : Q;
  avg_request_rate : Q
}.

(** [analysis['comparison']]. *)
Record comparison : Type := mkComparison {
  error_rate_diff : Q;
  latency_diff : Q;
  error_rate_ratio : Q
}.

(** The dict [analysis]. *)
Record analysis : Type := mkAnalysis {
  canary_avg : averages;
  stable_avg : averages;
  compared : comparison
}.

(** One entry of [decision_history]. *)
Record decision : Type := mkDecision {
  h_timestamp : Z;
  h_decision : string;
  h_reason : string;
  h_metrics : option analysis
}.

(** The attributes of a [CanaryMonitor]. *)
Record CanaryMonitor : Type := mkMonitor {
  duration : Z;
  error_threshold : Q;
  latency_threshold : Z;
  success_threshold : Q;
  prometheus_url : string;
  main_service_url : string;
  canary_service_url : option string;
  canary_metrics : list metrics;
  stable_metrics : list metrics;
  decision_history : list decision
}.

(** [CanaryMonitor.__init__]: the arguments are stored as they come. *)
Definition init (duration : Z) (error_threshold : Q)
    (latency_threshold : Z) (success_threshold : Q) : CanaryMonitor :=
  {| duration := duration;
     error_threshold := error_threshold;
     latency_threshold := latency_threshold;
     success_threshold := success_threshold;
     prometheus_url := "http://localhost:9090";
     main_service_url := "http://localhost:5000";
     canary_service_url := None;
     canary_metrics := [];
     stable_metrics := [];
     decision_history := [] |}.

(** The defaults of the keyword arguments of [__init__] and of [main]. *)
Definition default_duration : Z := 600.
Definition default_error_threshold : Q := 1 # 100.
Definition default_latency_threshold : Z := 500.
Definition default_success_threshold : Q := 99 # 100.

(** ** The analysis *)

(** [timedelta(minutes=5)], in microseconds. *)
Definition five_minutes : Z := 5 * 60 * 1000000.

(** The literal [0.001] under the error-rate ratio. *)
Definition ratio_epsilon : Q := 1 # 1000.

(** The literals [2.0] and [100] of the two degradation checks. *)
Definition ratio_alarm_factor : Q := 2.
Definition latency_delta_alarm_ms : Q := 100.

(** [[m for m in ms if m['timestamp'] > datetime.now() - timedelta(minutes=5)]];
    [now] is the reading of the clock during the comprehension. *)
Definition recent (now : Z) (ms : list metrics) : list metrics :=
  filter (fun m => (now - five_minutes <? timestamp m)%Z) ms.

(** [not xs] on a list. *)
Definition is_empty {A : Type} (xs : list A) : bool :=
  match xs with
  | [] => true
  | _ :: _ => false
  end.

(** The dict of the three [statistics.mean] calls over one window. *)
Definition average (window : list metrics) : option averages :=
  match mean (map error_rate window),
        mean (map p95_latency window),
        mean (map request_rate window) with
  | Some e, Some l, Some r => Some (mkAverages e l r)
  | _, _, _ => None
  end.

(** [analysis['comparison']]. *)
Definition compare_averages (c s : averages) : comparison :=
  {| error_rate_diff := Qred (avg_error_rate c - avg_error_rate s);
     latency_diff := Qred (avg_p95_latency c - avg_p95_latency s);
     error_rate_ratio :=
       Qred (avg_error_rate c / py_max (avg_error_rate s) ratio_epsilon) |}.

Section Analysis.
Context {fmt : NumberFormat}.

(** The conditions of the four [if]s of the decision logic. *)
Definition error_rate_exceeded (self : CanaryMonitor) (a : analysis) : bool :=
  Qgtb (avg_error_rate (canary_avg a)) (error_threshold self).

Definition latency_exceeded (self : CanaryMonitor) (a : analysis) : bool :=
  Qgtb (avg_p95_latency (canary_avg a)) (inject_Z (latency_threshold self)).

Definition error_ratio_alarm (a : analysis) : bool :=
  Qgtb (error_rate_ratio (compared a)) ratio_alarm_factor.

Definition latency_delta_alarm (a : analysis) : bool :=
  Qgtb (latency_diff (compared a)) latency_delta_alarm_ms.

(** The reasons they append. *)
Definition error_rate_reason (self : CanaryMonitor) (a : analysis) : string :=
  "Error rate " ++ format_f 4 (avg_error_rate (canary_avg a))
    ++ " exceeds threshold " ++ str_float (error_threshold self).

Definition latency_reason (self : CanaryMonitor) (a : analysis) : string :=
  "P95 latency " ++ format_f 1 (avg_p95_latency (canary_avg a))
    ++ "ms exceeds threshold " ++ str_int (latency_threshold self) ++ "ms".

Definition error_ratio_reason (a : analysis) : string :=
  "Error rate is " ++ format_f 1 (error_rate_ratio (compared a))
    ++ "x higher than stable".

Definition latency_delta_reason (a : analysis) : string :=
  "Latency is " ++ format_f 1 (latency_diff (compared a))
    ++ "ms higher than stable".

(** [decision_reasons.append(reason)] under [if cond]. *)
Definition append_if (cond : bool) (reason : string) (reasons : list string)
    : list string :=
  if cond then reasons ++ [reason] else reasons.

(** The list [decision_reasons] once the four [if]s have run. *)
Definition decision_reasons (self : CanaryMonitor) (a : analysis)
    : list string :=
  let reasons := [] in
  let reasons :=
    append_if (error_rate_exceeded self a) (error_rate_reason self a) reasons in
  let reasons :=
    append_if (latency_exceeded self a) (latency_reason self a) reasons in
  let reasons :=
    append_if (error_ratio_alarm a) (error_ratio_reason a) reasons in
  let reasons :=
    append_if (latency_delta_alarm a) (latency_delta_reason a) reasons in
  reasons.

(** The tail of the method, from [# Make decision].  [success_rate] is
    the binary64 difference [1 - canary_avg['error_rate']], compared with
    the binary64 value of the threshold. *)
Definition make_decision (self : CanaryMonitor) (a : analysis)
    : bool * string * option analysis :=
  let reasons := decision_reasons self a in
  if negb (is_empty reasons) then
    (false, join "; " reasons, Some a)
  else
    let success_rate := float_sub 1 (avg_error_rate (canary_avg a)) in
    if Qgeb success_rate (round64 (success_threshold self)) then
      (true,
       "All metrics within thresholds (success rate: "
         ++ format_f 3 success_rate ++ ")",
       Some a)
    else
      (false,
       "Success rate " ++ format_f 3 success_rate ++ " below threshold "
         ++ str_float (success_threshold self),
       Some a).

(** [analyze_canary_performance]; [None] is an exception leaving the
    method. *)
Definition analyze_canary_performance (self : CanaryMonitor) (now : Z)
    : option (bool * string * option analysis) :=
  if is_empty (canary_metrics self) || is_empty (stable_metrics self) then
    Some (false, "Insufficient metrics data", None)
  else
    let recent_canary := recent now (canary_metrics self) in
    let recent_stable := recent now (stable_metrics self) in
    if is_empty recent_canary || is_empty recent_stable then
      Some (false, "No recent metrics available", None)
    else
      match average recent_canary, average recent_stable with
      | Some c, Some s =>
          Some (make_decision self (mkAnalysis c s (compare_averages c s)))
      | _, _ => None
      end.

End Analysis.

(** ** The outside world *)

(** The body of a reply of the health endpoint, as far as
    [get_direct_metrics] reads it. *)
Inductive health_body : Type :=
| Malformed               (* reading it raises *)
| NoMemoryUsage           (* no ['performance']['memoryUsage'] *)
| HeapUsed (mb : Q).      (* ['performance']['memoryUsage']['heapUsed'] *)

(** What [requests.get] does. *)
Inductive http_reply : Type :=
| Raised                  (* timeout, connection error, bad URL *)
| Replied (status_code : Z) (body : health_body).

(** Where in the [try] block of an iteration a [KeyboardInterrupt] is
    raised. *)
Inductive stage : Type :=
| InCanaryFetch
| InStableFetch
| BeforeAnalysis
| InSleep.

(** One iteration of the loop as the world plays it: the two replies, the
    time each request takes and the time slept over the requested one (in
    microseconds), and the operator's interrupt. *)
Record tick_env : Type := mkTick {
  canary_reply : http_reply;
  canary_latency : N;
  stable_reply : http_reply;
  stable_latency : N;
  oversleep : N;
  interrupt : option stage
}.

Record environment : Type := mkEnv {
  discovery_reply : http_reply;
  start_clock : Z;
  ticks : nat -> tick_env
}.

(** ** Collecting metrics *)

(** [discover_canary_endpoint]; the bare [except] takes every exception. *)
Definition discover_canary_endpoint (self : CanaryMonitor) (reply : http_reply)
    : CanaryMonitor * option string :=
  let test_url := "http://localhost:5001" in
  let set url :=
    {| duration := duration self;
       error_threshold := error_threshold self;
       latency_threshold := latency_threshold self;
       success_threshold := success_threshold self;
       prometheus_url := prometheus_url self;
       main_service_url := main_service_url self;
       canary_service_url := Some url;
       canary_metrics := canary_metrics self;
       stable_metrics := stable_metrics self;
       decision_history := decision_history self |} in
  match reply with
  | Replied status _ =>
      if (status =? 200)%Z then (set test_url, Some test_url)
      else (self, None)
  | Raised => (set (main_service_url self), Some (main_service_url self))
  end.

(** [service_url == self.canary_service_url]. *)
Definition same_url (a b : option string) : bool :=
  match a, b with
  | Some x, Some y => String.eqb x y
  | None, None => true
  | _, _ => false
  end.

(** [get_direct_metrics]; the request to a URL that is [None] raises, and
    every exception gives [{}]. *)
Definition get_direct_metrics (self : CanaryMonitor)
    (service_url : option string) (reply : http_reply) (now : Z)
    : option metrics :=
  match service_url, reply with
  | Some _, Replied status body =>
      if (status =? 200)%Z || (status =? 206)%Z then
        let is_canary := same_url service_url (canary_service_url self) in
        let simulated memory :=
          {| error_rate := if is_canary then 5 # 1000 else 2 # 1000;
             p95_latency := if is_canary then 450 else 400;
             request_rate := 100;
             cpu_usage := 65;
             memory_usage := memory;
             timestamp := now |} in
        match body with
        | Malformed => None
        | NoMemoryUsage => Some (simulated 70)
        | HeapUsed mb =>
            Some (simulated (py_min 100 (Qred (Qred (mb / 1024) * 100))))
        end
      else None
  | _, _ => None
  end.

(** [stable_metrics['error_rate'] *= 0.8] and
    [stable_metrics['p95_latency'] *= 0.95]. *)
Definition adjust_stable (m : metrics) : metrics :=
  {| error_rate := Qred (error_rate m * (8 # 10));
     p95_latency := Qred (p95_latency m * (95 # 100));
     request_rate := request_rate m;
     cpu_usage := cpu_usage m;
     memory_usage := memory_usage m;
     timestamp := timestamp m |}.

(** [self.canary_metrics.append(m)] when [m] is not [{}]. *)
Definition append_canary (self : CanaryMonitor) (m : option metrics)
    : CanaryMonitor :=
  match m with
  | None => self
  | Some m =>
      {| duration := duration self;
         error_threshold := error_threshold self;
         latency_threshold := latency_threshold self;
         success_threshold := success_threshold self;
         prometheus_url := prometheus_url self;
         main_service_url := main_service_url self;
         canary_service_url := canary_service_url self;
         canary_metrics := canary_metrics self ++ [m];
         stable_metrics := stable_metrics self;
         decision_history := decision_history self |}
  end.

(** [self.stable_metrics.append(m)], after the adjustment, when [m] is not
    [{}]. *)
Definition append_stable (self : CanaryMonitor) (m : option metrics)
    : CanaryMonitor :=
  match m with
  | None => self
  | Some m =>
      {| duration := duration self;
         error_threshold := error_threshold self;
         latency_threshold := latency_threshold self;
         success_threshold := success_threshold self;
         prometheus_url := prometheus_url self;
         main_service_url := main_service_url self;
         canary_service_url := canary_service_url self;
         canary_metrics := canary_metrics self;
         stable_metrics := stable_metrics self ++ [adjust_stable m];
         decision_history := decision_history self |}
  end.

(** [self.decision_history.append(d)]. *)
Definition record_decision (self : CanaryMonitor) (d : decision)
    : CanaryMonitor :=
  {| duration := duration self;
     error_threshold := error_threshold self;
     latency_threshold := latency_threshold self;
     success_threshold := success_threshold self;
     prometheus_url := prometheus_url self;
     main_service_url := main_service_url self;
     canary_service_url := canary_service_url self;
     canary_metrics := canary_metrics self;
     stable_metrics := stable_metrics self;
     decision_history := decision_history self ++ [d] |}.

(** ** The monitoring loop *)

(** [check_interval = 30] and the pause [time.sleep(5)] of the handler of
    [Exception], in microseconds. *)
Definition check_interval : Z := 30 * 1000000.
Definition retry_pause : Z := 5 * 1000000.

(** ['continue' if should_continue else 'rollback']. *)
Definition decision_of (should_continue : bool) : string :=
  if should_continue then "continue" else "rollback".

(** The object and the local variables of [monitor_canary] at the head of
    the [while]. *)
Record loop_state : Type := mkLoop {
  monitor : CanaryMonitor;
  checks_completed : Z;
  clock : Z;
  iteration : nat
}.

(** How one iteration ends: a [return] inside the loop, or back to the
    head of the [while]. *)
Inductive step : Type :=
| Return (value : bool) (st : loop_state)
| Next (st : loop_state).

Section Monitoring.
Context {fmt : NumberFormat}.

(** The body of the [while], handlers included. *)
Definition tick (e : tick_env) (st : loop_state) : step :=
  let self := monitor st in
  let interrupted s :=
    match interrupt e, s with
    | Some InCanaryFetch, InCanaryFetch
    | Some InStableFetch, InStableFetch
    | Some BeforeAnalysis, BeforeAnalysis
    | Some InSleep, InSleep => true
    | _, _ => false
    end in
  let leave self checks now :=
    mkLoop self checks now (S (iteration st)) in
  (* canary *)
  if interrupted InCanaryFetch then
    Return false (leave self (checks_completed st) (clock st))
  else
  let now := (clock st + Z.of_N (canary_latency e))%Z in
  let self :=
    append_canary self
      (get_direct_metrics self (canary_service_url self)
         (canary_reply e) now) in
  (* stable *)
  if interrupted InStableFetch then
    Return false (leave self (checks_completed st) now)
  else
  let now := (now + Z.of_N (stable_latency e))%Z in
  let self :=
    append_stable self
      (get_direct_metrics self (Some (main_service_url self))
         (stable_reply e) now) in
  if interrupted BeforeAnalysis then
    Return false (leave self (checks_completed st) now)
  else
  (* analysis, every 5 checks *)
  let analysed :=
    if (0 <? checks_completed st)%Z
       && (checks_completed st mod 5 =? 0)%Z
    then
      match analyze_canary_performance self now with
      | Some (should_continue, reason, a) =>
          Some (record_decision self
                  {| h_timestamp := now;
                     h_decision := decision_of should_continue;
                     h_reason := reason;
                     h_metrics := a |},
                should_continue)
      | None => None
      end
    else Some (self, true) in
  match analysed with
  | None =>
      (* except Exception *)
      Next (leave self (checks_completed st)
              (now + retry_pause + Z.of_N (oversleep e))%Z)
  | Some (self, false) =>
      Return false (leave self (checks_completed st) now)
  | Some (self, true) =>
      let checks := (checks_completed st + 1)%Z in
      if interrupted InSleep then Return false (leave self checks now)
      else
        Next (leave self checks
                (now + check_interval + Z.of_N (oversleep e))%Z)
  end.

(** How the [while] ends: a [return] of its body, or its condition
    [datetime.now() < end_time] turning false. *)
Inductive loop_exit : Type :=
| Returned (value : bool) (st : loop_state)
| Expired (st : loop_state).

(** The [while] loop, at most [fuel] iterations of it; [None] when they
    do not suffice. *)
Fixpoint monitor_loop (fuel : nat) (ticks : nat -> tick_env) (end_time : Z)
    (st : loop_state) : option loop_exit :=
  if (clock st <? end_time)%Z then
    match fuel with
    | O => None
    | S fuel' =>
        match tick (ticks (iteration st)) st with
        | Return value st' => Some (Returned value st')
        | Next st' => monitor_loop fuel' ticks end_time st'
        end
    end
  else Some (Expired st).

(** Every iteration that goes round sleeps 5 seconds or more, so this
    many iterations cover [duration] seconds. *)
Definition enough_fuel (duration : Z) : nat := S (Z.to_nat (duration / 5)).

(** [monitor_canary]: the value returned and the object as the method
    leaves it.  [None] when no value is returned: an exception of the
    final analysis leaves the method, or the fuel of the loop is
    spent.  The report written by [_generate_report] is not modelled. *)
Definition monitor_canary (env : environment) (self : CanaryMonitor)
    : option (bool * CanaryMonitor) :=
  let self := fst (discover_canary_endpoint self (discovery_reply env)) in
  let start_time := start_clock env in
  let end_time := (start_time + duration self * 1000000)%Z in
  match monitor_loop (enough_fuel (duration self)) (ticks env) end_time
          (mkLoop self 0 start_time O) with
  | None => None
  | Some (Returned value st) => Some (value, monitor st)
  | Some (Expired st) =>
      match analyze_canary_performance (monitor st) (clock st) with
      | Some (should_continue, _, _) => Some (should_continue, monitor st)
      | None => None
      end
  end.

(** The status [main] exits with. *)
Definition exit_status (success : bool) : Z := if success then 0%Z else 1%Z.

(** [main], from the parsed arguments on. *)
Definition main (env : environment) (duration : Z) (error_threshold : Q)
    (latency_threshold : Z) (success_threshold : Q) : option Z :=
  let monitor :=
    init duration error_threshold latency_threshold success_threshold in
  match monitor_canary env monitor with
  | Some (success, _) => Some (exit_status success)
  | None => None
  end.

End Monitoring.

(** ** The report of a run *)

(** [report['configuration']]. *)
Record configuration : Type := mkConfiguration {
  cfg_error_threshold : Q;
  cfg_latency_threshold : Z;
  cfg_success_threshold : Q
}.

(** The dict [report] that [_generate_report] dumps to a file. *)
Record report : Type := mkReport {
  monitoring_duration : Z;
  total_checks : nat;
  final_analysis : option analysis;
  report_history : list decision;
  report_configuration : configuration
}.


Section Reporting.
Context {fmt : NumberFormat}.


End Reporting.

(** ** Prometheus *)

(** A value as [response.json()] gives it; a dict is the list of its
    items, in which a key occurs once. *)
#[warnings="-register-all"]
Inductive json : Type :=
| JNull
| JBool (b : bool)
| JInt (n : Z)
| JFloat (x : Q)
| JString (s : string)
| JList (items : list json)
| JDict (fields : list (string * json)).

(** The exceptions that indexing and converting such values raise. *)
Inductive exn : Type :=
| KeyError
| IndexError
| ValueError
| TypeError
| AttributeError.

(** What evaluating an expression gives. *)
Inductive outcome (A : Type) : Type :=
| Value (a : A)
| Raise (e : exn).

Arguments Value {A} a.
Arguments Raise {A} e.

Definition bind {A B : Type} (o : outcome A) (k : A -> outcome B)
    : outcome B :=
  match o with
  | Value a => k a
  | Raise e => Raise e
  end.

(** The item of a dict under a key. *)
Fixpoint lookup (key : string) (fields : list (string * json)) : option json :=
  match fields with
  | [] => None
  | (k, v) :: rest => if String.eqb k key then Some v else lookup key rest
  end.

(** [v.get(key, default)]: only a dict has the method. *)
Definition py_get (v : json) (key : string) (default : json) : outcome json :=
  match v with
  | JDict fields =>
      match lookup key fields with
      | Some x => Value x
      | None => Value default
      end
  | _ => Raise AttributeError
  end.

(** [v[key]] for a string [key]. *)
Definition subscript_key (v : json) (key : string) : outcome json :=
  match v with
  | JDict fields =>
      match lookup key fields with
      | Some x => Value x
      | None => Raise KeyError
      end
  | _ => Raise TypeError
  end.

(** [v[i]] for a non-negative integer [i]; no dict decoded from JSON has an
    integer key. *)
Definition subscript_index (v : json) (i : nat) : outcome json :=
  match v with
  | JList items =>
      match nth_error items i with
      | Some x => Value x
      | None => Raise IndexError
      end
  | JString s =>
      match String.get i s with
      | Some c => Value (JString (String c EmptyString))
      | None => Raise IndexError
      end
  | JDict _ => Raise KeyError
  | _ => Raise TypeError
  end.

(** The truth value of [v] in an [if]. *)
Definition truthy (v : json) : bool :=
  match v with
  | JNull => false
  | JBool b => b
  | JInt n => negb (n =? 0)%Z
  | JFloat x => negb (Qeq_bool x 0)
  | JString s => negb (String.eqb s "")
  | JList items => negb (is_empty items)
  | JDict fields => negb (is_empty fields)
  end.

(** What the Prometheus server does with one query. *)
Inductive prometheus_reply : Type :=
| QueryRaised
| QueryReplied (status_code : Z) (body : option json).  (* [None]: not JSON *)

(** [fetch_prometheus_metrics]: the decoded body of a reply with status
    200, and [{}] otherwise; the text of the query goes to the server and
    does not enter the result. *)
Definition fetch_prometheus_metrics (reply : prometheus_reply) : json :=
  match reply with
  | QueryReplied status (Some body) =>
      if (status =? 200)%Z then body else JDict []
  | _ => JDict []
  end.

(** The dict built by [get_service_metrics]. *)
Record service_metrics : Type := mkServiceMetrics {
  sm_error_rate : Q;
  sm_p95_latency : Q;
  sm_request_rate : Q;
  sm_timestamp : Z
}.

Section Prometheus.
(** [float(s)] of a string: [None] is [ValueError]. *)
Variable float_of_string : string -> option Q.

(** [float(v)]. *)
Definition py_float (v : json) : outcome Q :=
  match v with
  | JInt n => Value (inject_Z n)
  | JFloat x => Value x
  | JBool b => Value (if b then 1 else 0)
  | JString s =>
      match float_of_string s with
      | Some x => Value x
      | None => Raise ValueError
      end
  | _ => Raise TypeError
  end.

(** The body of the [try] of [_parse_prometheus_value]. *)
Definition parse_prometheus_body (data : json) : outcome Q :=
  bind (py_get data "data" (JDict [])) (fun d =>
  bind (py_get d "result" JNull) (fun result =>
  if truthy result then
    bind (subscript_key data "data") (fun d =>
    bind (subscript_key d "result") (fun r =>
    bind (subscript_index r 0) (fun first =>
    bind (subscript_key first "value") (fun value =>
    bind (subscript_index value 1) py_float))))
  else Value 0)).

(** [_parse_prometheus_value]: the handler turns [KeyError], [IndexError]
    and [ValueError] into 0.0 and lets the others through. *)
Definition _parse_prometheus_value (data : json) : outcome Q :=
  match parse_prometheus_body data with
  | Raise KeyError | Raise IndexError | Raise ValueError => Value 0
  | other => other
  end.

(** [get_service_metrics], given the replies to its three queries and the
    reading of the clock. *)
Definition get_service_metrics
    (error_reply latency_reply rate_reply : prometheus_reply) (now : Z)
    : outcome service_metrics :=
  let error_data := fetch_prometheus_metrics error_reply in
  let latency_data := fetch_prometheus_metrics latency_reply in
  let rate_data := fetch_prometheus_metrics rate_reply in
  bind (_parse_prometheus_value error_data) (fun e =>
  bind (_parse_prometheus_value latency_data) (fun l =>
  bind (_parse_prometheus_value rate_data) (fun r =>
  Value {| sm_error_rate := e;
           sm_p95_latency := Qred (l * 1000);
           sm_request_rate := r;
           sm_timestamp := now |}))).

End Prometheus.

(** ** The deployment report ([scripts/generate-deployment-report.py]) *)

Module Report.

(** [round(x, 1)]: the nearest multiple of 0.1, ties to the even one. *)
Definition round1 (x : Q) : Q :=
  Qred (inject_Z (round_half_even (Qnum x * 10) (Zpos (Qden x))) / 10).

(** The literals of [weights]. *)
Definition weight_quality : Q := 3 # 10.
Definition weight_security : Q := 4 # 10.
Definition weight_coverage : Q := 3 # 10.

(** The dict returned by [calculate_deployment_health] ([weights], a
    constant, left out). *)
Record deployment_health : Type := mkHealth {
  overall_score : Q;
  status : string;
  grade : string;
  quality_contribution : Q;
  security_contribution : Q;
  coverage_contribution : Q
}.

(** [coverage_score = min(coverage * 100, 100)]. *)
Definition coverage_score (coverage : Q) : Q :=
  py_min (Qred (coverage * 100)) 100.

(** The weighted sum [overall_score], before any rounding. *)
Definition weighted_score (quality security : Z) (coverage : Q) : Q :=
  Qred (Qred (Qred (inject_Z quality * weight_quality)
              + Qred (inject_Z security * weight_security))
        + Qred (coverage_score coverage * weight_coverage)).

(** [calculate_deployment_health]. *)
Definition calculate_deployment_health (quality security : Z) (coverage : Q)
    : deployment_health :=
  let overall := weighted_score quality security coverage in
  let '(status, grade) :=
    if Qgeb overall 90 then ("EXCELLENT", "A+")
    else if Qgeb overall 80 then ("GOOD", "A")
    else if Qgeb overall 70 then ("ACCEPTABLE", "B")
    else if Qgeb overall 60 then ("POOR", "C")
    else ("CRITICAL", "D") in
  {| overall_score := round1 overall;
     status := status;
     grade := grade;
     quality_contribution := round1 (Qred (inject_Z quality * weight_quality));
     security_contribution :=
       round1 (Qred (inject_Z security * weight_security));
     coverage_contribution :=
       round1 (Qred (coverage_score coverage * weight_coverage)) |}.

(** [get_deployment_duration]: [durations.get(deployment_type, '15-20 minutes')]. *)
Definition get_deployment_duration (deployment_type : string) : string :=
  if String.eqb deployment_type "blue-green" then "15-20 minutes"
  else if String.eqb deployment_type "canary" then "30-45 minutes"
  else if String.eqb deployment_type "rolling" then "10-15 minutes"
  else "15-20 minutes".

(** The fields of [generate_deployment_summary] that depend on its
    argument. *)
Record deployment_summary : Type := mkSummary {
  deployment_strategy : string;
  estimated_duration : string;
  zero_downtime : bool;
  blue_green : bool;
  canary : bool;
  progressive : bool
}.

Definition generate_deployment_summary (deployment_type : string)
    : deployment_summary :=
  {| deployment_strategy := deployment_type;
     estimated_duration := get_deployment_duration deployment_type;
     zero_downtime :=
       String.eqb deployment_type "blue-green"
       || String.eqb deployment_type "canary";
     blue_green := String.eqb deployment_type "blue-green";
     canary := String.eqb deployment_type "canary";
     progressive :=
       String.eqb deployment_type "canary"
       || String.eqb deployment_type "rolling" |}.

(** One entry of [gates] ([threshold] and [actual] left out). *)
Record gate : Type := mkGate {
  passed : bool;
  gate_status : string
}.

(** The dict returned by [evaluate_quality_gates]. *)
Record quality_gates : Type := mkGates {
  code_quality : gate;
  security_scan : gate;
  test_coverage : gate;
  overall_status : string;
  passed_count : nat;
  total_count : nat
}.

(** ['PASS' if ok else 'FAIL']. *)
Definition pass_fail (ok : bool) : string := if ok then "PASS" else "FAIL".

(** [gates.values()], in the order of insertion. *)
Definition gate_values (g1 g2 g3 : gate) : list gate := [g1; g2; g3].

(** [evaluate_quality_gates]. *)
Definition evaluate_quality_gates (quality security : Z) (coverage : Q)
    : quality_gates :=
  let g1 := mkGate (70 <=? quality)%Z (pass_fail (70 <=? quality)%Z) in
  let g2 := mkGate (80 <=? security)%Z (pass_fail (80 <=? security)%Z) in
  let g3 := mkGate (Qgeb coverage (8 # 10)) (pass_fail (Qgeb coverage (8 # 10))) in
  let gates := gate_values g1 g2 g3 in
  let all_passed := forallb passed gates in
  {| code_quality := g1;
     security_scan := g2;
     test_coverage := g3;
     overall_status := pass_fail all_passed;
     passed_count := length (filter passed gates);
     total_count := length gates |}.

(** The fields of [generate_security_assessment] that depend on its
    argument. *)
Record security_assessment : Type := mkAssessment {
  critical_issues : Z;
  high_issues : Z;
  owasp_top_10 : string;
  pci_dss : string
}.

Definition generate_security_assessment (security_score : Z)
    : security_assessment :=
  {| critical_issues := if (90 <=? security_score)%Z then 0 else 1;
     high_issues := if (80 <=? security_score)%Z then 1 else 3;
     owasp_top_10 :=
       if (85 <=? security_score)%Z then "COMPLIANT" else "PARTIAL";
     pci_dss :=
       if (80 <=? security_score)%Z then "PARTIAL" else "NON_COMPLIANT" |}.

(** The dict [recommendations]. *)
Record recommendations : Type := mkRecommendations {
  immediate : list string;
  short_term : list string;
  long_term : list string
}.

(** [recommendations[...].append(text)]. *)
Definition add_immediate (text : string) (r : recommendations)
    : recommendations :=
  mkRecommendations (immediate r ++ [text]) (short_term r) (long_term r).

Definition add_short_term (text : string) (r : recommendations)
    : recommendations :=
  mkRecommendations (immediate r) (short_term r ++ [text]) (long_term r).

Definition add_long_term (text : string) (r : recommendations)
    : recommendations :=
  mkRecommendations (immediate r) (short_term r) (long_term r ++ [text]).

(** The general improvements that end [long_term]. *)
Definition general_improvements : list string :=
  [ "Implement continuous performance monitoring";
    "Set up automated security scanning";
    "Enhance monitoring and alerting";
    "Consider implementing chaos engineering" ].

(** [generate_recommendations]. *)
Definition generate_recommendations (quality security : Z) (coverage : Q)
    : recommendations :=
  let r := mkRecommendations [] [] [] in
  let r :=
    if (quality <? 70)%Z then
      add_immediate "Fix linting errors and code smells"
        (add_immediate "Address code quality issues before deployment" r)
    else if (quality <? 85)%Z then
      add_short_term "Improve code documentation"
        (add_short_term "Refactor complex code sections" r)
    else r in
  let r :=
    if (security <? 80)%Z then
      add_immediate "Update dependencies with known vulnerabilities"
        (add_immediate "Fix critical security vulnerabilities" r)
    else if (security <? 90)%Z then
      add_short_term "Enhance input validation"
        (add_short_term "Implement additional security headers" r)
    else r in
  let r :=
    if Qgtb (7 # 10) coverage then
      add_short_term "Add integration and e2e tests"
        (add_immediate "Increase test coverage before deployment" r)
    else if Qgtb (9 # 10) coverage then
      add_long_term "Implement property-based testing"
        (add_short_term "Add tests for edge cases" r)
    else r in
  mkRecommendations (immediate r) (short_term r)
    (long_term r ++ general_improvements).

(** [generate_next_steps]. *)
Definition generate_next_steps (health : deployment_health) : list string :=
  let health_score := overall_score health in
  if Qgeb health_score 90 then
    [ "✅ Deployment approved - excellent quality metrics";
      "🚀 Proceed with production deployment";
      "📊 Monitor post-deployment metrics";
      "🔄 Schedule next release planning" ]
  else if Qgeb health_score 80 then
    [ "✅ Deployment approved - good quality metrics";
      "⚠️ Monitor closely during deployment";
      "📈 Address minor issues in next iteration";
      "🔍 Conduct post-deployment review" ]
  else if Qgeb health_score 70 then
    [ "🟡 Conditional approval - address critical issues";
      "🔧 Fix high-priority recommendations";
      "🧪 Run additional testing";
      "👥 Stakeholder review required" ]
  else
    [ "❌ Deployment blocked - quality threshold not met";
      "🚨 Address critical issues immediately";
      "🔄 Re-run CI/CD pipeline after fixes";
      "📋 Quality gate review required" ].

(** The parts of the dict [report] of [generate_report] that are computed
    from its arguments. *)
Record deployment_report : Type := mkDeploymentReport {
  health : deployment_health;
  summary : deployment_summary;
  gates : quality_gates;
  assessment : security_assessment;
  advice : recommendations;
  next_steps : list string
}.

(** [generate_report]. *)
Definition generate_report (quality_score security_score : Z)
    (test_coverage : Q) (deployment_type : string) : deployment_report :=
  let deployment_health :=
    calculate_deployment_health quality_score security_score test_coverage in
  {| health := deployment_health;
     summary := generate_deployment_summary deployment_type;
     gates := evaluate_quality_gates quality_score security_score test_coverage;
     assessment := generate_security_assessment security_score;
     advice := generate_recommendations quality_score security_score test_coverage;
     next_steps := generate_next_steps deployment_health |}.

(** The status [main] exits with, from the parsed arguments on. *)
Definition main (quality_score security_score : Z) (test_coverage : Q)
    (deployment_type : string) : Z :=
  let report :=
    generate_report quality_score security_score test_coverage deployment_type in
  if Qgeb (overall_score (health report)) 70
     && String.eqb (overall_status (gates report)) "PASS"
  then 0%Z else 1%Z.

End Report.

(** ** The windows as the specification words them *)

(** Specification: [recent] returns the samples with
    [timestamp >= now - window_duration], the boundary included. *)
Definition recent_inclusive (now window_duration : Z) (ms : list metrics)
    : list metrics :=
  filter (fun m => (now - window_duration <=? timestamp m)%Z) ms.


(** Chronological order of a sequence of samples. *)
Definition chronological (ms : list metrics) : Prop :=
  forall i j a b,
    (i < j)%nat -> nth_error ms i = Some a -> nth_error ms j = Some b ->
    (timestamp a <= timestamp b)%Z.

(** A fetch that gives [{}] whatever the URL. *)
Definition fetch_fails (reply : http_reply) : bool :=
  match reply with
  | Raised => true
  | Replied status body =>
      negb ((status =? 200)%Z || (status =? 206)%Z)
      || match body with Malformed => true | _ => false end
  end.

(** The samples a fetch adds to a store. *)
Definition appended (m : option metrics) : list metrics :=
  match m with
  | Some m => [m]
  | None => []
  end.

(** The state an iteration ends in. *)
Definition state_after (s : step) : loop_state :=
  match s with
  | Return _ st => st
  | Next st => st
  end.

(** ** Vocabulary for the loop *)




(** ** Concrete monitors and worlds *)

(** A sample as [get_direct_metrics] builds it, with the given error rate,
    latency and timestamp. *)
Definition sample (e l : Q) (t : Z) : metrics :=
  {| error_rate := e; p95_latency := l; request_rate := 100;
     cpu_usage := 65; memory_usage := 70; timestamp := t |}.

(** A monitor with the default thresholds and the given stores. *)
Definition monitor_with (canary stable : list metrics) : CanaryMonitor :=
  {| duration := default_duration;
     error_threshold := default_error_threshold;
     latency_threshold := default_latency_threshold;
     success_threshold := default_success_threshold;
     prometheus_url := "http://localhost:9090";
     main_service_url := "http://localhost:5000";
     canary_service_url := Some "http://localhost:5001";
     canary_metrics := canary;
     stable_metrics := stable;
     decision_history := [] |}.

(** Scenario A: five canary samples at error rate 0.005 and 450 ms, five
    stable samples at 0.002 and 400 ms. *)
Definition scenario_A : CanaryMonitor :=
  monitor_with (repeat (sample (5 # 1000) 450 0) 5)
               (repeat (sample (2 # 1000) 400 0) 5).

(** A canary close to the stable version: 0.005 against 0.004, 450 ms
    against 427.5 ms. *)
Definition healthy : CanaryMonitor :=
  monitor_with [sample (5 # 1000) 450 0] [sample (4 # 1000) (855 # 2) 0].

(** A stable version that made no error at all. *)
Definition stable_without_errors : CanaryMonitor :=
  monitor_with [sample (5 # 1000) 450 0] [sample 0 400 0].


(** The head of the loop at its first iteration, for a monitor with empty
    stores whose canary endpoint was discovered. *)
Definition first_iteration : loop_state :=
  {| monitor := monitor_with [] []; checks_completed := 0; clock := 0;
     iteration := 0 |}.

(** The head of the loop at its third iteration, one minute in. *)
Definition third_iteration : loop_state :=
  {| monitor := healthy; checks_completed := 2; clock := 60000000;
     iteration := 2 |}.

(** A healthy reply of the health endpoint. *)
Definition healthy_reply : http_reply := Replied 200 NoMemoryUsage.

(** An iteration with the given replies, no delay and no interrupt. *)
Definition quiet_tick (canary stable : http_reply) : tick_env :=
  {| canary_reply := canary; canary_latency := 0;
     stable_reply := stable; stable_latency := 0;
     oversleep := 0; interrupt := None |}.

(** Nothing answers: discovery and every fetch raise. *)
Definition world_down : environment :=
  {| discovery_reply := Raised; start_clock := 0;
     ticks := fun _ => quiet_tick Raised Raised |}.

(** The canary endpoint is discovered and every fetch succeeds. *)
Definition world_up : environment :=
  {| discovery_reply := healthy_reply; start_clock := 0;
     ticks := fun _ => quiet_tick healthy_reply healthy_reply |}.


(** As [world_fallback], with the operator interrupting the sleep of the
    third iteration. *)
Definition world_interrupted : environment :=
  {| discovery_reply := Raised; start_clock := 0;
     ticks := fun i =>
       if Nat.eqb i 2 then
         {| canary_reply := healthy_reply; canary_latency := 0;
            stable_reply := healthy_reply; stable_latency := 0;
            oversleep := 0; interrupt := Some InSleep |}
       else quiet_tick healthy_reply healthy_reply |}.

(** Scenario B: a canary at error rate 0.02. *)
Definition scenario_B : CanaryMonitor :=
  monitor_with [sample (2 # 100) 450 0] [sample (2 # 1000) 400 0].

(** The stores of [healthy] under laxer thresholds: 0.05, 1000 ms, 0.9. *)
Definition lenient : CanaryMonitor :=
  {| duration := default_duration;
     error_threshold := 5 # 100;
     latency_threshold := 1000;
     success_threshold := 9 # 10;
     prometheus_url := "http://localhost:9090";
     main_service_url := "http://localhost:5000";
     canary_service_url := Some "http://localhost:5001";
     canary_metrics := canary_metrics healthy;
     stable_metrics := stable_metrics healthy;
     decision_history := [] |}.

(** Thresholds 0.07 and 0.93, which add up to 1, and a canary whose error
    rate is the threshold 0.07. *)
Definition at_the_boundary : CanaryMonitor :=
  {| duration := default_duration;
     error_threshold := 7 # 100;
     latency_threshold := default_latency_threshold;
     success_threshold := 93 # 100;
     prometheus_url := "http://localhost:9090";
     main_service_url := "http://localhost:5000";
     canary_service_url := Some "http://localhost:5001";
     canary_metrics := [sample (7 # 100) 450 0];
     stable_metrics := [sample (7 # 100) 400 0];
     decision_history := [] |}.

(** The stores of [healthy], each behind a sample that is ten minutes
    older and much worse. *)
Definition with_stale_samples : CanaryMonitor :=
  monitor_with
    [sample (9 # 10) 5000 (-600000000); sample (5 # 1000) 450 0]
    [sample (1 # 2) 3000 (-600000000); sample (4 # 1000) (855 # 2) 0].

(** A query whose result is [{}]: no reply, a status other than 200, or a
    body that is not JSON. *)
Definition query_fails (reply : prometheus_reply) : bool :=
  match reply with
  | QueryReplied status (Some _) => negb (status =? 200)%Z
  | _ => true
  end.

(** Whether a value is a dict. *)
Definition is_dict (v : json) : bool :=
  match v with
  | JDict _ => true
  | _ => false
  end.

(** A reading of the two numerals of [vector_reply]. *)
Definition read_numeral (s : string) : option Q :=
  if String.eqb s "0.0125" then Some (125 # 10000)
  else if String.eqb s "0.25" then Some (1 # 4)
  else None.

(** The body of an instant-vector reply of Prometheus with one sample. *)
Definition vector_body (numeral : string) : json :=
  JDict [ ("status", JString "success");
          ("data",
           JDict [ ("resultType", JString "vector");
                   ("result",
                    JList [ JDict [ ("metric", JDict []);
                                    ("value",
                                     JList [ JFloat (1700000000 # 1);
                                             JString numeral ]) ] ]) ]) ].


(** ** Basic facts *)

Lemma Qgtb_lt (x y : Q) : Qgtb x y = true <-> y < x.
Proof.
  unfold Qgtb. rewrite negb_true_iff.
  split; intro H.
  - apply Qnot_le_lt. intro Hle. apply Qle_bool_iff in Hle. congruence.
  - destruct (Qle_bool x y) eqn:E; [|reflexivity].
    apply Qle_bool_iff in E. exfalso. exact (Qlt_not_le _ _ H E).
Qed.

Lemma Qgtb_le (x y : Q) : Qgtb x y = false <-> x <= y.
Proof.
  unfold Qgtb. rewrite negb_false_iff. apply Qle_bool_iff.
Qed.

Lemma py_max_Qmax (a b : Q) : py_max a b == Qmax a b.
Proof.
  unfold py_max. destruct (Qgtb b a) eqn:E.
  - apply Qgtb_lt in E. symmetry. apply Q.max_r. apply Qlt_le_weak, E.
  - apply Qgtb_le in E. symmetry. apply Q.max_l. exact E.
Qed.

Lemma py_max_positive (a b : Q) : 0 < b -> 0 < py_max a b.
Proof.
  intro Hb. unfold py_max. destruct (Qgtb b a) eqn:E; [exact Hb|].
  apply Qgtb_le in E. eapply Qlt_le_trans; eauto.
Qed.

Lemma is_empty_nil {A : Type} (xs : list A) : is_empty xs = true <-> xs = [].
Proof. destruct xs; simpl; split; congruence. Qed.

Lemma recent_nil_of_nil (now : Z) (ms : list metrics) :
  is_empty ms = true -> is_empty (recent now ms) = true.
Proof. destruct ms; simpl; [reflexivity | discriminate]. Qed.

Lemma mean_of_nonempty (xs : list Q) :
  xs <> [] -> exists q, mean xs = Some q.
Proof. destruct xs; [congruence | intros _; eexists; reflexivity]. Qed.

Lemma average_of_nonempty (w : list metrics) :
  is_empty w = false -> exists a, average w = Some a.
Proof.
  destruct w as [|m w]; [discriminate | intros _].
  unfold average; simpl. eexists; reflexivity.
Qed.

Lemma average_some_nonempty (w : list metrics) (a : averages) :
  average w = Some a -> is_empty w = false.
Proof. destruct w; [discriminate | reflexivity]. Qed.

Lemma average_error_rate (w : list metrics) (a : averages) :
  average w = Some a ->
  mean (map error_rate w) = Some (avg_error_rate a)
  /\ mean (map p95_latency w) = Some (avg_p95_latency a).
Proof.
  unfold average.
  destruct (mean (map error_rate w)), (mean (map p95_latency w)),
    (mean (map request_rate w)); try discriminate.
  intros [= <-]. split; reflexivity.
Qed.

Lemma append_if_spec (c : bool) (r : string) (rs : list string) :
  append_if c r rs = (rs ++ map snd (filter fst [(c, r)]))%list.
Proof. destruct c; simpl; [reflexivity | now rewrite app_nil_r]. Qed.



(** ** Rounding *)

Local Open Scope Z_scope.

Lemma round_half_even_floor (n d : Z) :
  (0 < d)%Z -> (n / d <= round_half_even n d <= n / d + 1)%Z.
Proof.
  intros Hd. unfold round_half_even.
  destruct (2 * (n mod d) <? d)%Z; [lia|].
  destruct (d <? 2 * (n mod d))%Z; [lia|].
  destruct (Z.even (n / d)); lia.
Qed.

Lemma round_half_even_lower (n d k : Z) :
  (0 < d)%Z -> (k * d <= n)%Z -> (k <= round_half_even n d)%Z.
Proof.
  intros Hd Hk. pose proof (round_half_even_floor n d Hd).
  assert (k <= n / d)%Z by (apply Z.div_le_lower_bound; lia). lia.
Qed.

Lemma round_half_even_upper (n d k : Z) :
  (0 < d)%Z -> (n <= k * d)%Z -> (round_half_even n d <= k)%Z.
Proof.
  intros Hd Hk. unfold round_half_even.
  pose proof (Z.div_mod n d ltac:(lia)) as Hdm.
  pose proof (Z.mod_pos_bound n d Hd) as Hm.
  assert (Hq : (n / d <= k)%Z) by (apply Z.div_le_upper_bound; lia).
  assert (Hstrict : (0 < n mod d -> n / d < k)%Z) by nia.
  destruct (2 * (n mod d) <? d)%Z eqn:E1; [lia|].
  apply Z.ltb_ge in E1.
  destruct (d <? 2 * (n mod d))%Z; [lia|].
  destruct (Z.even (n / d)); lia.
Qed.

(** Floors of fractions in the order of the fractions. *)
Lemma div_le_cross (n1 d1 n2 d2 : Z) :
  0 < d1 -> 0 < d2 -> n1 * d2 <= n2 * d1 -> n1 / d1 <= n2 / d2.
Proof.
  intros H1 H2 H.
  apply Z.div_le_lower_bound; [exact H2|].
  pose proof (Z.mul_div_le n1 d1 H1) as Hf.
  assert (Hc : d1 * (d2 * (n1 / d1)) <= d1 * n2) by nia.
  apply Z.mul_le_mono_pos_l in Hc; assumption.
Qed.

(** Rounding to the nearest integer keeps the order of the fractions. *)
Lemma round_half_even_mono (n1 d1 n2 d2 : Z) :
  0 < d1 -> 0 < d2 -> n1 * d2 <= n2 * d1 ->
  round_half_even n1 d1 <= round_half_even n2 d2.
Proof.
  intros H1 H2 H.
  pose proof (div_le_cross n1 d1 n2 d2 H1 H2 H) as Hf.
  pose proof (round_half_even_floor n1 d1 H1) as B1.
  pose proof (round_half_even_floor n2 d2 H2) as B2.
  destruct (Z.eq_dec (n1 / d1) (n2 / d2)) as [E | E]; [|lia].
  pose proof (Z.div_mod n1 d1 ltac:(lia)) as M1.
  pose proof (Z.div_mod n2 d2 ltac:(lia)) as M2.
  pose proof (Z.mod_pos_bound n1 d1 H1) as R1.
  pose proof (Z.mod_pos_bound n2 d2 H2) as R2.
  assert (Hr : (n1 mod d1) * d2 <= (n2 mod d2) * d1) by nia.
  unfold round_half_even in *. rewrite <- E in *.
  destruct (2 * (n1 mod d1) <? d1) eqn:A1.
  { destruct (2 * (n2 mod d2) <? d2); [lia|].
    destruct (d2 <? 2 * (n2 mod d2)); [lia|].
    destruct (Z.even (n1 / d1)); lia. }
  apply Z.ltb_ge in A1.
  destruct (2 * (n2 mod d2) <? d2) eqn:A2.
  { apply Z.ltb_lt in A2. exfalso. nia. }
  apply Z.ltb_ge in A2.
  destruct (d1 <? 2 * (n1 mod d1)) eqn:C1.
  { apply Z.ltb_lt in C1.
    destruct (d2 <? 2 * (n2 mod d2)) eqn:C2; [lia|].
    apply Z.ltb_ge in C2. exfalso. nia. }
  destruct (d2 <? 2 * (n2 mod d2)) eqn:C2.
  { destruct (Z.even (n1 / d1)); lia. }
  destruct (Z.even (n1 / d1)); lia.
Qed.

Lemma round_to_grid_nonneg (n d : Z) : 0 <= n -> 0 < d -> 0 <= round_to_grid n d.
Proof.
  intros Hn Hd. unfold round_to_grid.
  set (s := Z.max 0 (Z.log2 (n * Z.pos grid / d) - 52)).
  assert (Hs : 0 < 2 ^ s) by (apply Z.pow_pos_nonneg; lia).
  apply Z.mul_nonneg_nonneg; [|lia].
  apply round_half_even_lower; lia.
Qed.

Lemma round_to_grid_mono (n1 d1 n2 d2 : Z) :
  0 <= n1 -> 0 < d1 -> 0 < d2 -> n1 * d2 <= n2 * d1 ->
  round_to_grid n1 d1 <= round_to_grid n2 d2.
Proof.
  intros Hn1 H1 H2 H.
  assert (Hn2 : 0 <= n2) by nia.
  unfold round_to_grid.
  set (P := Z.pos grid). assert (HP : 0 < P) by reflexivity.
  set (t1 := n1 * P). set (t2 := n2 * P).
  assert (Ht : t1 * d2 <= t2 * d1) by (unfold t1, t2; nia).
  assert (Ht1 : 0 <= t1) by (unfold t1; nia).
  assert (Ht2 : 0 <= t2) by (unfold t2; nia).
  set (F1 := t1 / d1). set (F2 := t2 / d2).
  assert (HF : F1 <= F2) by (apply div_le_cross; assumption).
  assert (HF1 : 0 <= F1) by (apply Z.div_pos; assumption).
  set (s1 := Z.max 0 (Z.log2 F1 - 52)). set (s2 := Z.max 0 (Z.log2 F2 - 52)).
  assert (Hlog : Z.log2 F1 <= Z.log2 F2) by (apply Z.log2_le_mono; exact HF).
  assert (Hs : s1 <= s2) by (unfold s1, s2; lia).
  assert (Hs1 : 0 <= s1) by (unfold s1; lia).
  assert (Hp1 : 0 < 2 ^ s1) by (apply Z.pow_pos_nonneg; lia).
  assert (Hp2 : 0 < 2 ^ s2) by (apply Z.pow_pos_nonneg; lia).
  destruct (Z.eq_dec s1 s2) as [E | E].
  - rewrite <- E.
    apply Z.mul_le_mono_nonneg_r; [lia|].
    apply round_half_even_mono; nia.
  - assert (Hlt : s1 + 1 <= s2) by lia.
    assert (Hs2 : s2 = Z.log2 F2 - 52) by (unfold s2 in *; lia).
    assert (HF2 : 0 < F2) by (destruct (Z.eq_dec F2 0) as [Z0|]; [rewrite Z0 in Hs2; simpl in Hs2; lia | lia]).
    (* the larger one is at least 2^52 units of its grid *)
    assert (Hlow : 2 ^ 52 <= round_half_even t2 (d2 * 2 ^ s2)).
    { apply round_half_even_lower; [nia|].
      pose proof (Z.log2_spec F2 HF2) as [Hl _].
      assert (Hsplit : 2 ^ Z.log2 F2 = 2 ^ 52 * 2 ^ s2).
      { rewrite <- Z.pow_add_r by lia. f_equal. lia. }
      pose proof (Z.mul_div_le t2 d2 H2) as Hfl. fold F2 in Hfl.
      rewrite Hsplit in Hl. nia. }
    (* the smaller one is at most 2^53 units of its grid *)
    assert (Hup : round_half_even t1 (d1 * 2 ^ s1) <= 2 ^ 53).
    { apply round_half_even_upper; [nia|].
      assert (HFb : F1 + 1 <= 2 ^ 53 * 2 ^ s1).
      { rewrite <- Z.pow_add_r by lia.
        destruct (Z.eq_dec F1 0) as [Z0 | NZ].
        - rewrite Z0. assert (0 < 2 ^ (53 + s1)) by (apply Z.pow_pos_nonneg; lia). lia.
        - pose proof (Z.log2_spec F1 ltac:(lia)) as [_ Hu].
          assert (2 ^ Z.succ (Z.log2 F1) <= 2 ^ (53 + s1))
            by (apply Z.pow_le_mono_r; unfold s1; lia).
          lia. }
      pose proof (Z.mod_pos_bound t1 d1 H1) as Hm.
      pose proof (Z.div_mod t1 d1 ltac:(lia)) as Hdm. fold F1 in Hdm.
      nia. }
    assert (Hpow : 2 ^ 53 * 2 ^ s1 <= 2 ^ 52 * 2 ^ s2).
    { rewrite <- !Z.pow_add_r by lia. apply Z.pow_le_mono_r; lia. }
    nia.
Qed.

(** Rounding to binary64 keeps the order. *)
Lemma round64_mono (x y : Q) : (x <= y)%Q -> (round64 x <= round64 y)%Q.
Proof.
  intros Hxy. unfold round64. destruct x as [n1 d1], y as [n2 d2].
  unfold Qle in Hxy. cbn [Qnum Qden] in *.
  assert (Hfrac : forall a b : Z, a <= b -> (a # grid <= b # grid)%Q).
  { intros a b Hab. unfold Qle. cbn [Qnum Qden]. nia. }
  destruct (n1 <? 0) eqn:E1, (n2 <? 0) eqn:E2;
    try apply Z.ltb_lt in E1; try apply Z.ltb_ge in E1;
    try apply Z.ltb_lt in E2; try apply Z.ltb_ge in E2;
    rewrite !Qred_correct; apply Hfrac.
  - pose proof (round_to_grid_mono (- n2) (Z.pos d2) (- n1) (Z.pos d1)
                  ltac:(lia) ltac:(lia) ltac:(lia) ltac:(nia)). lia.
  - pose proof (round_to_grid_nonneg (- n1) (Z.pos d1) ltac:(lia) ltac:(lia)).
    pose proof (round_to_grid_nonneg n2 (Z.pos d2) ltac:(lia) ltac:(lia)). lia.
  - exfalso. nia.
  - apply round_to_grid_mono; lia.
Qed.

Local Close Scope Z_scope.

(** Subtraction on floats grows with its first argument and shrinks with
    its second. *)
Lemma float_sub_mono (x y y' : Q) : y' <= y -> float_sub x y <= float_sub x y'.
Proof.
  intros H. unfold float_sub. apply round64_mono.
  apply Qplus_le_r. apply Qopp_le_compat. apply round64_mono, H.
Qed.

(** ** The analysis: what it returns *)

Section AnalysisFacts.
Context {fmt : NumberFormat}.

(** The three ways out of [analyze_canary_performance]. *)
Lemma analyze_cases (self : CanaryMonitor) (now : Z) :
  (is_empty (canary_metrics self) || is_empty (stable_metrics self) = true
   /\ analyze_canary_performance self now
      = Some (false, "Insufficient metrics data", None))
  \/ (is_empty (canary_metrics self) || is_empty (stable_metrics self) = false
      /\ is_empty (recent now (canary_metrics self))
         || is_empty (recent now (stable_metrics self)) = true
      /\ analyze_canary_performance self now
         = Some (false, "No recent metrics available", None))
  \/ (exists c s,
        average (recent now (canary_metrics self)) = Some c
        /\ average (recent now (stable_metrics self)) = Some s
        /\ analyze_canary_performance self now
           = Some (make_decision self (mkAnalysis c s (compare_averages c s)))).
Proof.
  unfold analyze_canary_performance.
  destruct (is_empty (canary_metrics self) || is_empty (stable_metrics self))
    eqn:Hstore; [left; split; reflexivity | right].
  destruct (is_empty (recent now (canary_metrics self))
            || is_empty (recent now (stable_metrics self))) eqn:Hrecent;
    [left; repeat split; reflexivity | right].
  apply orb_false_iff in Hrecent as [Hc Hs].
  destruct (average_of_nonempty _ Hc) as [c Ec].
  destruct (average_of_nonempty _ Hs) as [s Es].
  exists c, s. rewrite Ec, Es. repeat split; reflexivity.
Qed.

(** With both windows inhabited the method reaches the decision logic. *)
Lemma analyze_inhabited (self : CanaryMonitor) (now : Z) :
  is_empty (recent now (canary_metrics self)) = false ->
  is_empty (recent now (stable_metrics self)) = false ->
  exists c s,
    average (recent now (canary_metrics self)) = Some c
    /\ average (recent now (stable_metrics self)) = Some s
    /\ analyze_canary_performance self now
       = Some (make_decision self (mkAnalysis c s (compare_averages c s))).
Proof.
  intros Hc Hs.
  destruct (analyze_cases self now) as [[H _] | [(_ & H & _) | H]];
    [exfalso | exfalso | exact H].
  - apply orb_true_iff in H as [H | H];
      apply (recent_nil_of_nil now) in H; congruence.
  - rewrite Hc, Hs in H. discriminate.
Qed.

(** The method always returns: no exception leaves it. *)
Lemma analyze_returns (self : CanaryMonitor) (now : Z) :
  exists r, analyze_canary_performance self now = Some r.
Proof.
  destruct (analyze_cases self now) as [[_ H] | [(_ & _ & H) | (c & s & _ & _ & H)]];
    rewrite H; eexists; reflexivity.
Qed.

(** The four sequential [if]s select, in order, the reasons of the
    conditions that hold. *)
Lemma decision_reasons_filter (self : CanaryMonitor) (a : analysis) :
  decision_reasons self a
  = map snd (filter fst
      [ (error_rate_exceeded self a, error_rate_reason self a);
        (latency_exceeded self a, latency_reason self a);
        (error_ratio_alarm a, error_ratio_reason a);
        (latency_delta_alarm a, latency_delta_reason a) ]).
Proof.
  unfold decision_reasons.
  destruct (error_rate_exceeded self a), (latency_exceeded self a),
    (error_ratio_alarm a), (latency_delta_alarm a); reflexivity.
Qed.


(** The flag of [make_decision]. *)
Lemma make_decision_flag (self : CanaryMonitor) (a : analysis) :
  fst (fst (make_decision self a))
  = is_empty (decision_reasons self a)
    && Qgeb (float_sub 1 (avg_error_rate (canary_avg a)))
         (round64 (success_threshold self)).
Proof.
  unfold make_decision.
  destruct (is_empty (decision_reasons self a)); simpl; [|reflexivity].
  destruct (Qgeb _ _); reflexivity.
Qed.

Lemma make_decision_analysis (self : CanaryMonitor) (a : analysis) :
  snd (make_decision self a) = Some a.
Proof.
  unfold make_decision.
  destruct (is_empty (decision_reasons self a)); simpl; [|reflexivity].
  destruct (Qgeb _ _); reflexivity.
Qed.


End AnalysisFacts.

(** ** The analysis: the claims *)

Section AnalysisClaims.
Context {fmt : NumberFormat}.

(** C1 (as the code has it): when the recent window of the canary or of
    the stable version is empty, the analysis returns the flag [False]
    with an empty analysis, whatever the thresholds are; the reason is
    "Insufficient metrics data" when a store is empty and "No recent
    metrics available" when both stores hold samples; the loop records
    this flag as 'rollback', as it does for a violated threshold. *)
Theorem empty_window_stops_analysis (self : CanaryMonitor) (now : Z) :
  is_empty (recent now (canary_metrics self)) = true
  \/ is_empty (recent now (stable_metrics self)) = true ->
  analyze_canary_performance self now
  = Some (false,
          (if is_empty (canary_metrics self) || is_empty (stable_metrics self)
           then "Insufficient metrics data"
           else "No recent metrics available"),
          None)
  /\ decision_of false = "rollback".
Proof.
  intros Hempty. split; [|reflexivity].
  destruct (analyze_cases self now)
    as [[Hs H] | [(Hs & _ & H) | (c & s & Hc & Hst & _)]].
  - rewrite Hs. exact H.
  - rewrite Hs. exact H.
  - apply average_some_nonempty in Hc, Hst.
    destruct Hempty; congruence.
Qed.


(** C3 (scenario A): canary means 0.005 and 450 ms, stable means 0.002
    and 400 ms, thresholds 0.01, 500 and 0.99: the flag is [False], the
    error-rate ratio is 2.5, and the only reason is the one on the
    error-rate ratio. *)
Theorem scenario_A_rolls_back_on_ratio (self : CanaryMonitor) (now : Z)
    (canary_rate stable_rate : Q) :
  error_threshold self = 1 # 100 ->
  latency_threshold self = 500%Z ->
  success_threshold self = 99 # 100 ->
  average (recent now (canary_metrics self))
    = Some (mkAverages (1 # 200) 450 canary_rate) ->
  average (recent now (stable_metrics self))
    = Some (mkAverages (1 # 500) 400 stable_rate) ->
  exists a,
    analyze_canary_performance self now
    = Some (false,
            "Error rate is " ++ format_f 1 (5 # 2) ++ "x higher than stable",
            Some a)
    /\ error_rate_ratio (compared a) = 5 # 2
    /\ decision_reasons self a
       = ["Error rate is " ++ format_f 1 (5 # 2) ++ "x higher than stable"].
Proof.
  intros He Hl Hs Hc Hst.
  destruct (analyze_inhabited self now
              (average_some_nonempty _ _ Hc) (average_some_nonempty _ _ Hst))
    as (c & s & Ec & Es & Ea).
  rewrite Hc in Ec. rewrite Hst in Es.
  injection Ec as <-. injection Es as <-.
  eexists. rewrite Ea.
  unfold make_decision, decision_reasons, error_rate_exceeded,
    latency_exceeded, error_ratio_alarm, latency_delta_alarm,
    error_ratio_reason.
  rewrite He, Hl.
  repeat split; reflexivity.
Qed.


(** C7: with both windows inhabited, the error-rate ratio is the canary
    mean error rate over [max(stable mean error rate, 0.001)]; the
    divisor is positive, and it is 0.001 when the stable mean is 0. *)
Theorem error_rate_ratio_guarded (self : CanaryMonitor) (now : Z) :
  is_empty (recent now (canary_metrics self)) = false ->
  is_empty (recent now (stable_metrics self)) = false ->
  exists should_continue reason a canary_mean stable_mean,
    analyze_canary_performance self now = Some (should_continue, reason, Some a)
    /\ mean (map error_rate (recent now (canary_metrics self)))
       = Some canary_mean
    /\ mean (map error_rate (recent now (stable_metrics self)))
       = Some stable_mean
    /\ error_rate_ratio (compared a)
       == canary_mean / Qmax stable_mean (1 # 1000)
    /\ 0 < Qmax stable_mean (1 # 1000)
    /\ (stable_mean == 0 ->
        py_max stable_mean ratio_epsilon = 1 # 1000
        /\ error_rate_ratio (compared a) == canary_mean / (1 # 1000)).
Proof.
  intros Hc Hs.
  destruct (analyze_inhabited self now Hc Hs) as (c & s & Ec & Es & Ea).
  set (a := mkAnalysis c s (compare_averages c s)) in *.
  pose proof (make_decision_analysis self a) as Ha.
  destruct (make_decision self a) as [[b r] oa]. simpl in Ha. subst oa.
  exists b, r, a, (avg_error_rate c), (avg_error_rate s).
  split; [exact Ea|].
  split; [apply (average_error_rate _ _ Ec)|].
  split; [apply (average_error_rate _ _ Es)|].
  assert (Hratio : error_rate_ratio (compared a)
                   == avg_error_rate c / py_max (avg_error_rate s) ratio_epsilon)
    by (subst a; cbn [compared compare_averages error_rate_ratio];
        apply Qred_correct).
  split; [rewrite Hratio, py_max_Qmax; reflexivity|].
  split.
  - rewrite <- py_max_Qmax. now apply py_max_positive.
  - intros Hzero.
    assert (Hmax : py_max (avg_error_rate s) ratio_epsilon = 1 # 1000).
    { unfold py_max.
      destruct (Qgtb ratio_epsilon (avg_error_rate s)) eqn:E; [reflexivity|].
      apply Qgtb_le in E. rewrite Hzero in E. now vm_compute in E. }
    split; [exact Hmax|]. rewrite Hratio, Hmax. reflexivity.
Qed.

End AnalysisClaims.

(** ** The recent window *)

Lemma recent_app (now : Z) (l1 l2 : list metrics) :
  recent now (l1 ++ l2) = (recent now l1 ++ recent now l2)%list.
Proof. apply filter_app. Qed.

Lemma nth_error_filter_increasing {A : Type} (f : A -> bool) (l : list A) :
  forall i j a b,
    (i < j)%nat ->
    nth_error (filter f l) i = Some a -> nth_error (filter f l) j = Some b ->
    exists i' j',
      (i' < j')%nat /\ nth_error l i' = Some a /\ nth_error l j' = Some b.
Proof.
  induction l as [|x l IH]; intros i j a b Hij Hi Hj.
  - destruct i; discriminate.
  - simpl in Hi, Hj. destruct (f x).
    + destruct j as [|j]; [lia|]. destruct i as [|i].
      * simpl in Hi, Hj. injection Hi as ->.
        apply nth_error_In, filter_In, proj1, In_nth_error in Hj
          as [j' Hj'].
        exists 0%nat, (S j'). repeat split; [lia | exact Hj'].
      * simpl in Hi, Hj.
        destruct (IH i j a b ltac:(lia) Hi Hj) as (i' & j' & H & Hi' & Hj').
        exists (S i'), (S j'). repeat split; [lia | exact Hi' | exact Hj'].
    + destruct (IH i j a b Hij Hi Hj) as (i' & j' & H & Hi' & Hj').
      exists (S i'), (S j'). repeat split; [lia | exact Hi' | exact Hj'].
Qed.

(** C6 (as the code has it): the recent window holds exactly the stored
    samples with [timestamp > now - 5 minutes], the boundary excluded, in
    the order of the store, which is chronological when the store is. *)
Theorem recent_is_strict_window (now : Z) (ms : list metrics) :
  (forall m, In m (recent now ms)
             <-> In m ms /\ (now - five_minutes < timestamp m)%Z)
  /\ (forall l1 l2, ms = (l1 ++ l2)%list ->
        recent now ms = (recent now l1 ++ recent now l2)%list)
  /\ (chronological ms -> chronological (recent now ms)).
Proof.
  split; [|split].
  - intros m. unfold recent. rewrite filter_In, Z.ltb_lt. reflexivity.
  - intros l1 l2 ->. apply recent_app.
  - intros Hms i j a b Hij Hi Hj.
    destruct (nth_error_filter_increasing _ _ _ _ _ _ Hij Hi Hj)
      as (i' & j' & H & Hi' & Hj').
    exact (Hms i' j' a b H Hi' Hj').
Qed.

(** ** The loop: progress and termination *)

Section LoopFacts.
Context {fmt : NumberFormat}.





End LoopFacts.

(** ** The loop: what an iteration does to the stores *)

Lemma get_direct_metrics_append_canary (self : CanaryMonitor)
    (m : option metrics) (url : option string) (reply : http_reply) (now : Z) :
  get_direct_metrics (append_canary self m) url reply now
  = get_direct_metrics self url reply now.
Proof. destruct m; reflexivity. Qed.


Lemma stores_append_canary (self : CanaryMonitor) (m : option metrics) :
  canary_metrics (append_canary self m)
  = (canary_metrics self ++ appended m)%list
  /\ stable_metrics (append_canary self m) = stable_metrics self
  /\ main_service_url (append_canary self m) = main_service_url self
  /\ canary_service_url (append_canary self m) = canary_service_url self.
Proof. destruct m; simpl; rewrite ?app_nil_r; repeat split; reflexivity. Qed.

Lemma stores_append_stable (self : CanaryMonitor) (m : option metrics) :
  canary_metrics (append_stable self m) = canary_metrics self
  /\ stable_metrics (append_stable self m)
     = (stable_metrics self ++ appended (option_map adjust_stable m))%list.
Proof. destruct m; simpl; rewrite ?app_nil_r; split; reflexivity. Qed.

Section LoopClaims.
Context {fmt : NumberFormat}.


(** C8 (as the code has it): in an iteration that is not interrupted,
    the canary store gains the canary sample exactly when the canary
    fetch gave one, and the stable store gains the adjusted stable
    sample exactly when the stable fetch gave one, each whatever the
    other fetch did. *)
Theorem tick_appends_per_cohort (e : tick_env) (st : loop_state) :
  interrupt e = None ->
  let self := monitor st in
  let canary_now := (clock st + Z.of_N (canary_latency e))%Z in
  let stable_now := (canary_now + Z.of_N (stable_latency e))%Z in
  let self' := monitor (state_after (tick e st)) in
  canary_metrics self'
  = (canary_metrics self
     ++ appended (get_direct_metrics self (canary_service_url self)
                    (canary_reply e) canary_now))%list
  /\ stable_metrics self'
     = (stable_metrics self
        ++ appended (option_map adjust_stable
                       (get_direct_metrics self (Some (main_service_url self))
                          (stable_reply e) stable_now)))%list.
Proof.
  intros Hint self canary_now stable_now self'.
  subst self'. unfold tick. rewrite Hint. fold self canary_now stable_now.
  set (mc := get_direct_metrics self (canary_service_url self)
               (canary_reply e) canary_now).
  destruct (stores_append_canary self mc) as (Hcc & Hcs & Hmain & _).
  rewrite Hmain, get_direct_metrics_append_canary.
  set (ms := get_direct_metrics self (Some (main_service_url self))
               (stable_reply e) stable_now).
  destruct (stores_append_stable (append_canary self mc) ms) as (Hsc & Hss).
  rewrite Hcc in Hsc. rewrite Hcs in Hss.
  destruct ((0 <? checks_completed st)%Z && (checks_completed st mod 5 =? 0)%Z);
    [destruct (analyze_canary_performance _ _) as [[[[] ?] ?]|]|];
    cbn [state_after monitor record_decision canary_metrics stable_metrics];
    split; assumption.
Qed.


(** An interrupted iteration returns [False] on the spot. *)
Lemma tick_interrupted (e : tick_env) (st : loop_state) (s : stage) :
  interrupt e = Some s ->
  exists st', tick e st = Return false st'
              /\ iteration st' = S (iteration st).
Proof.
  intros Hint. unfold tick. rewrite Hint.
  destruct s;
    try (eexists; split; reflexivity).
  destruct ((0 <? checks_completed st)%Z && (checks_completed st mod 5 =? 0)%Z);
    [|eexists; split; reflexivity].
  match goal with
  | |- context [analyze_canary_performance ?m ?n] =>
      destruct (analyze_returns m n) as [[[[] reason] a] Ha]; rewrite Ha
  end; eexists; split; reflexivity.
Qed.

(** C9 (as the code has it): when the operator interrupts an iteration,
    the loop ends in that iteration with the return value [False], for
    which [main] exits with status 1: the value and the status of a
    rollback, never those of a promotion. *)
Theorem interrupt_returns_false (fuel : nat) (ticks : nat -> tick_env)
    (end_time : Z) (st : loop_state) (s : stage) :
  (clock st < end_time)%Z ->
  interrupt (ticks (iteration st)) = Some s ->
  exists st',
    monitor_loop (S fuel) ticks end_time st = Some (Returned false st')
    /\ iteration st' = S (iteration st)
    /\ exit_status false = 1%Z.
Proof.
  intros Hclock Hint.
  destruct (tick_interrupted _ st s Hint) as (st' & Ht & Hi).
  exists st'. simpl.
  apply Z.ltb_lt in Hclock. rewrite Hclock, Ht. repeat split. exact Hi.
Qed.

End LoopClaims.

(** ** Concrete runs *)

(** C1, the claim refuted: a monitor with empty stores gets the flag
    [False], and the run in which nothing answers records its analysis as
    'rollback', not as a verdict of its own. *)
Lemma insufficient_data_recorded_as_rollback :
  @analyze_canary_performance decimal_format (monitor_with [] []) 0
  = Some (false, "Insufficient metrics data", None)
  /\ exists self',
       @monitor_canary decimal_format world_down
         (init 300 default_error_threshold default_latency_threshold
            default_success_threshold)
       = Some (false, self')
       /\ map (fun d => (h_decision d, h_reason d)) (decision_history self')
          = [("rollback", "Insufficient metrics data")].
Proof.
  split; [reflexivity|]. eexists. split; vm_compute; reflexivity.
Qed.

(** C1 at a monitor with empty stores. *)
Lemma empty_window_stops_analysis_witness :
  (is_empty (recent 0 (canary_metrics (monitor_with [] []))) = true
   \/ is_empty (recent 0 (stable_metrics (monitor_with [] []))) = true)
  /\ @analyze_canary_performance decimal_format (monitor_with [] []) 0
     = Some (false, "Insufficient metrics data", None).
Proof.
  split; [left; reflexivity|].
  exact (proj1 (@empty_window_stops_analysis decimal_format
                  (monitor_with [] []) 0 (or_introl eq_refl))).
Defined.


(** C3 at five samples per version, with the decimal formatting. *)
Lemma scenario_A_rolls_back_on_ratio_witness :
  error_threshold scenario_A = 1 # 100
  /\ latency_threshold scenario_A = 500%Z
  /\ success_threshold scenario_A = 99 # 100
  /\ length (recent 0 (canary_metrics scenario_A)) = 5%nat
  /\ length (recent 0 (stable_metrics scenario_A)) = 5%nat
  /\ exists a,
       @analyze_canary_performance decimal_format scenario_A 0
       = Some (false, "Error rate is 2.5x higher than stable", Some a)
       /\ error_rate_ratio (compared a) = 5 # 2
       /\ @decision_reasons decimal_format scenario_A a
          = ["Error rate is 2.5x higher than stable"].
Proof.
  repeat (split; [reflexivity|]).
  exact (@scenario_A_rolls_back_on_ratio decimal_format scenario_A 0 100 100
           eq_refl eq_refl eq_refl eq_refl eq_refl).
Defined.



(** C6, the claim refuted: a sample exactly five minutes old is in the
    window of the specification and not in the window of the code. *)
Lemma boundary_sample_is_dropped :
  timestamp (sample (5 # 1000) 450 0) = (five_minutes - five_minutes)%Z
  /\ recent_inclusive five_minutes five_minutes [sample (5 # 1000) 450 0]
     = [sample (5 # 1000) 450 0]
  /\ recent five_minutes [sample (5 # 1000) 450 0] = [].
Proof. repeat split. Qed.

(** C7 at a stable mean of 0: the ratio is 0.005 / 0.001. *)
Lemma error_rate_ratio_guarded_witness :
  is_empty (recent 0 (canary_metrics stable_without_errors)) = false
  /\ is_empty (recent 0 (stable_metrics stable_without_errors)) = false
  /\ mean (map error_rate (recent 0 (stable_metrics stable_without_errors)))
     = Some 0
  /\ exists should_continue reason a,
       @analyze_canary_performance decimal_format stable_without_errors 0
       = Some (should_continue, reason, Some a)
       /\ error_rate_ratio (compared a) == (5 # 1000) / (1 # 1000).
Proof.
  repeat (split; [reflexivity|]).
  destruct (@error_rate_ratio_guarded decimal_format stable_without_errors 0
              eq_refl eq_refl)
    as (b & r & a & cm & sm & Ha & Hc & Hs & _ & _ & Hzero).
  vm_compute in Hc. vm_compute in Hs.
  injection Hc as <-. injection Hs as <-.
  exists b, r, a. split; [exact Ha|].
  destruct (Hzero ltac:(reflexivity)) as [_ H]. rewrite H. reflexivity.
Defined.

(** C8, the claim refuted: the canary fetch succeeds, the stable fetch
    raises, and the iteration leaves the canary store one sample longer
    and the stable store as it was. *)
Lemma canary_committed_without_stable :
  let st' :=
    state_after (@tick decimal_format (quiet_tick healthy_reply Raised)
                   first_iteration) in
  canary_metrics (monitor st') = [sample (5 # 1000) 450 0]
  /\ stable_metrics (monitor st') = [].
Proof. split; reflexivity. Qed.

(** C8 the other way round: the canary fetch raises and the stable sample
    is stored all the same. *)
Lemma tick_appends_per_cohort_witness :
  interrupt (quiet_tick Raised healthy_reply) = None
  /\ canary_metrics
       (monitor (state_after (@tick decimal_format
                                (quiet_tick Raised healthy_reply)
                                first_iteration))) = []
  /\ stable_metrics
       (monitor (state_after (@tick decimal_format
                                (quiet_tick Raised healthy_reply)
                                first_iteration)))
     = [adjust_stable (sample (2 # 1000) 400 0)].
Proof.
  split; [reflexivity|].
  exact (@tick_appends_per_cohort decimal_format
           (quiet_tick Raised healthy_reply) first_iteration eq_refl).
Defined.

(** C9, the claim refuted: the interrupted run and the run that decides
    to roll back return the same value and exit with the same status. *)
Lemma interrupted_run_looks_like_rollback :
  (exists self',
     @monitor_canary decimal_format world_interrupted
       (init 300 default_error_threshold default_latency_threshold
          default_success_threshold)
     = Some (false, self')
     /\ decision_history self' = [])
  /\ (exists self',
        @monitor_canary decimal_format world_up
          (init 300 default_error_threshold default_latency_threshold
             default_success_threshold)
        = Some (false, self')
        /\ map h_decision (decision_history self') = ["rollback"])
  /\ @main decimal_format world_interrupted 300 default_error_threshold
       default_latency_threshold default_success_threshold
     = @main decimal_format world_up 300 default_error_threshold
         default_latency_threshold default_success_threshold.
Proof.
  split; [|split]; try eexists; try split; (vm_compute; reflexivity).
Qed.

(** C9 at the third iteration of the interrupted world. *)
Lemma interrupt_returns_false_witness :
  (clock third_iteration < 300000000)%Z
  /\ interrupt (ticks world_interrupted (iteration third_iteration))
     = Some InSleep
  /\ exists st',
       @monitor_loop decimal_format 1 (ticks world_interrupted) 300000000
         third_iteration
       = Some (Returned false st').
Proof.
  split; [reflexivity|]. split; [reflexivity|].
  destruct (@interrupt_returns_false decimal_format 0 (ticks world_interrupted)
              300000000 third_iteration InSleep eq_refl eq_refl)
    as (st' & H & _).
  exists st'. exact H.
Defined.

(** ** More on the analysis *)

Lemma append_empty_r (s : string) : s ++ "" = s.
Proof. induction s as [|c s IH]; simpl; [reflexivity | now rewrite IH]. Qed.

Lemma string_app_assoc (a b c : string) : (a ++ b) ++ c = a ++ b ++ c.
Proof. induction a as [|x a IH]; simpl; [reflexivity | now rewrite IH]. Qed.

Lemma join_head (sep p : string) (rest : list string) :
  exists tail, join sep (p :: rest) = p ++ tail.
Proof.
  destruct rest as [|q rest].
  - exists "". simpl. now rewrite append_empty_r.
  - eexists. reflexivity.
Qed.

Lemma Qgeb_le (x y : Q) : Qgeb x y = true <-> y <= x.
Proof. unfold Qgeb. apply Qle_bool_iff. Qed.

Lemma recent_idempotent (now : Z) (ms : list metrics) :
  recent now (recent now ms) = recent now ms.
Proof.
  unfold recent. induction ms as [|m ms IH]; simpl; [reflexivity|].
  destruct (now - five_minutes <? timestamp m)%Z eqn:E; simpl;
    [rewrite E, IH; reflexivity | exact IH].
Qed.

Section AnalysisMore.
Context {fmt : NumberFormat}.

(** X1: a canary mean error rate above [error_threshold] gives the flag
    [False], with a reason that starts with the error-rate reason. *)
Theorem error_rate_above_threshold_rolls_back
    (self : CanaryMonitor) (now : Z) (c s : averages) :
  average (recent now (canary_metrics self)) = Some c ->
  average (recent now (stable_metrics self)) = Some s ->
  error_threshold self < avg_error_rate c ->
  exists more,
    analyze_canary_performance self now
    = Some (false,
            "Error rate " ++ format_f 4 (avg_error_rate c)
              ++ " exceeds threshold " ++ str_float (error_threshold self)
              ++ more,
            Some (mkAnalysis c s (compare_averages c s))).
Proof.
  intros Ec Es Hlt.
  destruct (analyze_inhabited self now
              (average_some_nonempty _ _ Ec) (average_some_nonempty _ _ Es))
    as (c' & s' & Ec' & Es' & Ea).
  rewrite Ec in Ec'. rewrite Es in Es'.
  injection Ec' as <-. injection Es' as <-.
  rewrite Ea. set (a := mkAnalysis c s (compare_averages c s)).
  unfold make_decision.
  assert (Hfirst : exists rest,
             decision_reasons self a = error_rate_reason self a :: rest).
  { rewrite decision_reasons_filter.
    assert (E : error_rate_exceeded self a = true) by (apply Qgtb_lt, Hlt).
    rewrite E. cbn [filter fst map snd]. eexists. reflexivity. }
  destruct Hfirst as [rest Hr]. rewrite Hr. cbn [is_empty negb].
  destruct (join_head "; " (error_rate_reason self a) rest) as [tail Ht].
  rewrite Ht. exists tail. unfold error_rate_reason. subst a. cbn [canary_avg].
  rewrite !string_app_assoc. reflexivity.
Qed.

(** X2: laxer thresholds keep a [True]: when the analysis of a monitor
    continues, so does the analysis of the same stores under a higher
    error threshold, a higher latency threshold and a lower success
    threshold, with the same analysis. *)
Theorem laxer_thresholds_keep_continue
    (self self' : CanaryMonitor) (now : Z) (reason : string)
    (a : option analysis) :
  canary_metrics self' = canary_metrics self ->
  stable_metrics self' = stable_metrics self ->
  error_threshold self <= error_threshold self' ->
  (latency_threshold self <= latency_threshold self')%Z ->
  success_threshold self' <= success_threshold self ->
  analyze_canary_performance self now = Some (true, reason, a) ->
  exists reason',
    analyze_canary_performance self' now = Some (true, reason', a).
Proof.
  intros Hc Hs He Hl Hsr Ha.
  destruct (analyze_cases self now)
    as [[_ H] | [(_ & _ & H) | (c & s & Ec & Es & H)]];
    rewrite H in Ha; try discriminate.
  injection Ha as Hmd.
  set (an := mkAnalysis c s (compare_averages c s)) in *.
  pose proof (make_decision_flag self an) as Hf.
  pose proof (make_decision_analysis self an) as Han.
  rewrite Hmd in Hf, Han. cbn [fst snd] in Hf, Han.
  symmetry in Hf. apply andb_true_iff in Hf as [Hempty Hrate].
  rewrite decision_reasons_filter in Hempty.
  destruct (error_rate_exceeded self an) eqn:E1; [discriminate|].
  destruct (latency_exceeded self an) eqn:E2; [discriminate|].
  destruct (error_ratio_alarm an) eqn:E3; [discriminate|].
  destruct (latency_delta_alarm an) eqn:E4; [discriminate|].
  rewrite <- Hc in Ec. rewrite <- Hs in Es.
  destruct (analyze_inhabited self' now
              (average_some_nonempty _ _ Ec) (average_some_nonempty _ _ Es))
    as (c' & s' & Ec' & Es' & Ea').
  rewrite Ec in Ec'. rewrite Es in Es'.
  injection Ec' as <-. injection Es' as <-. fold an in Ea'.
  rewrite Ea'.
  pose proof (make_decision_flag self' an) as Hf'.
  pose proof (make_decision_analysis self' an) as Han'.
  destruct (make_decision self' an) as [[b' r'] oa'].
  cbn [fst snd] in Hf', Han'. subst oa'.
  exists r'. rewrite Han.
  enough (Hb : b' = true) by (rewrite Hb; reflexivity).
  rewrite Hf'. apply andb_true_iff. split.
  - rewrite decision_reasons_filter.
    assert (E1' : error_rate_exceeded self' an = false).
    { apply Qgtb_le. apply Qgtb_le in E1. eapply Qle_trans; eauto. }
    assert (E2' : latency_exceeded self' an = false).
    { apply Qgtb_le. apply Qgtb_le in E2. eapply Qle_trans; [exact E2|].
      rewrite <- Zle_Qle. exact Hl. }
    rewrite E1', E2', E3, E4. reflexivity.
  - apply Qgeb_le. apply Qgeb_le in Hrate.
    eapply Qle_trans; [apply round64_mono; exact Hsr | exact Hrate].
Qed.

(** X3: when the binary64 value of [success_threshold] is at most the
    binary64 difference [1 - error_threshold], the success-rate check
    decides nothing: a result that comes with an analysis has the flag
    [True] exactly when no condition is violated.  The exact inequality
    [success_threshold + error_threshold <= 1] is not enough: at 0.93
    and 0.07 the difference is rounded below 0.93. *)
Theorem success_check_is_redundant
    (self : CanaryMonitor) (now : Z) (flag : bool) (reason : string)
    (a : analysis) :
  round64 (success_threshold self) <= float_sub 1 (error_threshold self) ->
  analyze_canary_performance self now = Some (flag, reason, Some a) ->
  (flag = true <-> decision_reasons self a = []).
Proof.
  intros Hsum Ha.
  destruct (analyze_cases self now)
    as [[_ H] | [(_ & _ & H) | (c & s & Ec & Es & H)]];
    rewrite H in Ha; try discriminate.
  injection Ha as Hmd.
  set (an := mkAnalysis c s (compare_averages c s)) in *.
  pose proof (make_decision_flag self an) as Hf.
  pose proof (make_decision_analysis self an) as Han.
  rewrite Hmd in Hf, Han. cbn [fst snd] in Hf, Han.
  injection Han as ->.
  rewrite Hf. rewrite andb_true_iff, is_empty_nil.
  split; [tauto | intros Hnone; split; [exact Hnone|]].
  rewrite decision_reasons_filter in Hnone.
  destruct (error_rate_exceeded self an) eqn:E1; [discriminate|].
  apply Qgtb_le in E1. apply Qgeb_le.
  subst an. cbn [canary_avg] in *.
  eapply Qle_trans; [exact Hsum|].
  apply float_sub_mono. exact E1.
Qed.

(** X4: the floor 0.001 under the ratio keeps a low canary quiet: a
    canary mean error rate of at most 0.002 never raises the ratio alarm,
    and against a stable mean of at most 0.001 the alarm is raised exactly
    when the canary mean is above 0.002. *)
Theorem ratio_alarm_floor (c s : averages) :
  (avg_error_rate c <= 2 # 1000 ->
   Qgtb (error_rate_ratio (compare_averages c s)) ratio_alarm_factor = false)
  /\ (avg_error_rate s <= 1 # 1000 ->
      (Qgtb (error_rate_ratio (compare_averages c s)) ratio_alarm_factor = true
       <-> 2 # 1000 < avg_error_rate c)).
Proof.
  cbn [compare_averages error_rate_ratio]. unfold ratio_alarm_factor.
  set (d := py_max (avg_error_rate s) ratio_epsilon).
  assert (Hd : 0 < d) by (apply py_max_positive; reflexivity).
  assert (Hfloor : 1 # 1000 <= d).
  { unfold d. rewrite py_max_Qmax. apply Q.le_max_r. }
  split.
  - intros Hc. apply Qgtb_le. rewrite Qred_correct.
    apply Qle_shift_div_r; [exact Hd|].
    eapply Qle_trans; [exact Hc|].
    setoid_replace (2 # 1000) with (2 * (1 # 1000)) by reflexivity.
    apply Qmult_le_l; [reflexivity | exact Hfloor].
  - intros Hs.
    assert (E : d == 1 # 1000).
    { unfold d. rewrite py_max_Qmax. apply Q.max_r. exact Hs. }
    rewrite Qgtb_lt, Qred_correct, E. split; intros H.
    + pose proof (proj2 (Qmult_lt_r 2 (avg_error_rate c / (1 # 1000))
                           (1 # 1000) eq_refl) H) as H'.
      setoid_replace (avg_error_rate c / (1 # 1000) * (1 # 1000))
        with (avg_error_rate c) in H' by (field; discriminate).
      exact H'.
    + apply Qlt_shift_div_l; [reflexivity | exact H].
Qed.

(** X5: samples older than five minutes do not weigh on the decision:
    with both windows inhabited, the analysis of a monitor equals the
    analysis of the monitor that stores the recent samples only. *)
Theorem stale_samples_do_not_count
    (self self' : CanaryMonitor) (now : Z) :
  canary_metrics self' = recent now (canary_metrics self) ->
  stable_metrics self' = recent now (stable_metrics self) ->
  error_threshold self' = error_threshold self ->
  latency_threshold self' = latency_threshold self ->
  success_threshold self' = success_threshold self ->
  is_empty (recent now (canary_metrics self)) = false ->
  is_empty (recent now (stable_metrics self)) = false ->
  analyze_canary_performance self' now = analyze_canary_performance self now.
Proof.
  intros Hc Hs He Hl Hsr Nc Ns.
  destruct (analyze_inhabited self now Nc Ns) as (c & s & Ec & Es & Ea).
  assert (Nc' : is_empty (recent now (canary_metrics self')) = false)
    by (rewrite Hc, recent_idempotent; exact Nc).
  assert (Ns' : is_empty (recent now (stable_metrics self')) = false)
    by (rewrite Hs, recent_idempotent; exact Ns).
  destruct (analyze_inhabited self' now Nc' Ns') as (c' & s' & Ec' & Es' & Ea').
  rewrite Hc, recent_idempotent, Ec in Ec'.
  rewrite Hs, recent_idempotent, Es in Es'.
  injection Ec' as <-. injection Es' as <-.
  rewrite Ea, Ea'. f_equal.
  unfold make_decision, decision_reasons, error_rate_exceeded,
    latency_exceeded, error_rate_reason, latency_reason.
  rewrite He, Hl, Hsr. reflexivity.
Qed.

End AnalysisMore.

(** ** More on the loop *)






Section LoopShape.
Context {fmt : NumberFormat}.




End LoopShape.



(** What a sample of [get_direct_metrics] looks like. *)
Lemma get_direct_metrics_sample (self : CanaryMonitor) (url : option string)
    (reply : http_reply) (now : Z) (m : metrics) :
  get_direct_metrics self url reply now = Some m ->
  timestamp m = now
  /\ request_rate m = 100
  /\ cpu_usage m = 65
  /\ error_rate m
     = (if same_url url (canary_service_url self) then 5 # 1000 else 2 # 1000)
  /\ p95_latency m
     = (if same_url url (canary_service_url self) then 450 else 400).
Proof.
  unfold get_direct_metrics.
  destruct url as [u|]; [|discriminate].
  destruct reply as [|status body]; [discriminate|].
  destruct ((status =? 200)%Z || (status =? 206)%Z); [|discriminate].
  destruct body; [discriminate | |]; intros [= <-]; repeat split.
Qed.




Section RunFacts.
Context {fmt : NumberFormat}.




End RunFacts.

(** ** Whole runs *)





Section Runs.
Context {fmt : NumberFormat}.









End Runs.

(** ** Runs that never get a sample *)

Section FinalAnalysis.
Context {fmt : NumberFormat}.



End FinalAnalysis.



(** ** Fetching *)

Lemma py_min_le_l (a b : Q) : py_min a b <= a.
Proof.
  unfold py_min. destruct (Qgtb a b) eqn:E; [|apply Qle_refl].
  apply Qgtb_lt in E. apply Qlt_le_weak, E.
Qed.

(** X13: [get_direct_metrics] gives [{}] exactly when the URL is unset or
    the fetch fails (no reply, a status other than 200 and 206, a body
    that cannot be read); a sample carries the reading of the clock, a
    memory usage of at most 100, and the simulated error rate and latency
    of the canary when its URL is the canary URL, those of the stable
    version otherwise. *)
Theorem get_direct_metrics_outcome (self : CanaryMonitor)
    (url : option string) (reply : http_reply) (now : Z) :
  (get_direct_metrics self url reply now = None
   <-> url = None \/ fetch_fails reply = true)
  /\ forall m,
       get_direct_metrics self url reply now = Some m ->
       timestamp m = now
       /\ memory_usage m <= 100
       /\ error_rate m
          = (if same_url url (canary_service_url self)
             then 5 # 1000 else 2 # 1000)
       /\ p95_latency m
          = (if same_url url (canary_service_url self) then 450 else 400).
Proof.
  split.
  - unfold get_direct_metrics, fetch_fails.
    destruct url as [u|]; [|split; [left; reflexivity | reflexivity]].
    destruct reply as [|status body];
      [split; [right; reflexivity | reflexivity]|].
    destruct ((status =? 200)%Z || (status =? 206)%Z); cbn [negb orb].
    + destruct body; split;
        try (intros _; right; reflexivity); try discriminate;
        try reflexivity; intros [H | H]; discriminate.
    + split; [right; reflexivity | reflexivity].
  - intros m Hm.
    destruct (get_direct_metrics_sample _ _ _ _ _ Hm) as (Ht & _ & _ & He & Hl).
    repeat split; try assumption.
    unfold get_direct_metrics in Hm.
    destruct url as [u|]; [|discriminate].
    destruct reply as [|status body]; [discriminate|].
    destruct ((status =? 200)%Z || (status =? 206)%Z); [|discriminate].
    destruct body; [discriminate | |]; injection Hm as <-; cbn [memory_usage].
    + discriminate.
    + apply py_min_le_l.
Qed.

Section PrometheusFacts.
Variable float_of_string : string -> option Q.

(** X14: on the reply of a successful instant query, a dict whose
    ['data']['result'] is a list that starts with a dict whose ['value']
    is a pair, [_parse_prometheus_value] gives the number that [float]
    reads in the second component of the pair. *)
Theorem parse_prometheus_value_reads_first_sample
    (fields data_fields sample_fields : list (string * json))
    (others more : list json) (time value : json) (x : Q) :
  lookup "data" fields = Some (JDict data_fields) ->
  lookup "result" data_fields = Some (JList (JDict sample_fields :: others)) ->
  lookup "value" sample_fields = Some (JList (time :: value :: more)) ->
  py_float float_of_string value = Value x ->
  _parse_prometheus_value float_of_string (JDict fields) = Value x.
Proof.
  intros Hd Hr Hv Hx.
  unfold _parse_prometheus_value, parse_prometheus_body.
  cbn [py_get subscript_key bind]. rewrite Hd. cbn [bind py_get].
  rewrite Hr. cbn [bind truthy is_empty negb subscript_key]. rewrite Hr.
  cbn [bind subscript_index nth_error subscript_key]. rewrite Hv.
  cbn [bind subscript_index nth_error]. rewrite Hx. reflexivity.
Qed.

Lemma parse_empty_dict :
  _parse_prometheus_value float_of_string (JDict []) = Value 0.
Proof. reflexivity. Qed.

Lemma fetch_of_failed_query (reply : prometheus_reply) :
  query_fails reply = true -> fetch_prometheus_metrics reply = JDict [].
Proof.
  destruct reply as [|status [body|]]; try reflexivity.
  simpl. destruct (status =? 200)%Z; [discriminate | reflexivity].
Qed.

(** X15: a Prometheus that cannot be queried reads as a perfect service:
    when the three queries fail, [get_service_metrics] raises nothing and
    gives an error rate, a latency and a request rate of 0. *)
Theorem failed_queries_read_as_zero
    (error_reply latency_reply rate_reply : prometheus_reply) (now : Z) :
  query_fails error_reply = true ->
  query_fails latency_reply = true ->
  query_fails rate_reply = true ->
  get_service_metrics float_of_string error_reply latency_reply rate_reply now
  = Value {| sm_error_rate := 0; sm_p95_latency := 0;
             sm_request_rate := 0; sm_timestamp := now |}.
Proof.
  intros He Hl Hr. unfold get_service_metrics.
  rewrite (fetch_of_failed_query _ He), (fetch_of_failed_query _ Hl),
    (fetch_of_failed_query _ Hr), parse_empty_dict.
  reflexivity.
Qed.

Lemma bind_not_attribute_error {A B : Type} (o : outcome A)
    (k : A -> outcome B) :
  o <> Raise AttributeError ->
  (forall a, k a <> Raise AttributeError) ->
  bind o k <> Raise AttributeError.
Proof. destruct o as [a|e]; simpl; [auto | congruence]. Qed.

Lemma subscript_key_not_attribute_error (v : json) (key : string) :
  subscript_key v key <> Raise AttributeError.
Proof. destruct v; simpl; try discriminate. destruct (lookup key fields); discriminate. Qed.

Lemma subscript_index_not_attribute_error (v : json) (i : nat) :
  subscript_index v i <> Raise AttributeError.
Proof.
  destruct v; simpl; try discriminate.
  - destruct (String.get i s); discriminate.
  - destruct (nth_error items i); discriminate.
Qed.

Lemma py_float_not_attribute_error (v : json) :
  py_float float_of_string v <> Raise AttributeError.
Proof.
  destruct v; simpl; try discriminate. destruct (float_of_string s); discriminate.
Qed.

(** X16: the exception [AttributeError] leaves [_parse_prometheus_value]
    exactly when the reply is not a dict, or is a dict whose ['data'] is
    there and is not a dict: the handler does not turn it into 0.0. *)
Theorem parse_prometheus_value_attribute_error (data : json) :
  _parse_prometheus_value float_of_string data = Raise AttributeError
  <-> is_dict data = false
      \/ exists fields x,
           data = JDict fields
           /\ lookup "data" fields = Some x
           /\ is_dict x = false.
Proof.
  assert (Htail : forall d r : json,
             bind (subscript_key data "data") (fun d =>
             bind (subscript_key d "result") (fun r =>
             bind (subscript_index r 0) (fun first =>
             bind (subscript_key first "value") (fun value =>
             bind (subscript_index value 1) (py_float float_of_string)))))
             <> Raise AttributeError).
  { intros _ _.
    apply bind_not_attribute_error;
      [apply subscript_key_not_attribute_error | intros d].
    apply bind_not_attribute_error;
      [apply subscript_key_not_attribute_error | intros r].
    apply bind_not_attribute_error;
      [apply subscript_index_not_attribute_error | intros first].
    apply bind_not_attribute_error;
      [apply subscript_key_not_attribute_error | intros value].
    apply bind_not_attribute_error;
      [apply subscript_index_not_attribute_error
      | apply py_float_not_attribute_error]. }
  assert (Hhandler :
            _parse_prometheus_value float_of_string data = Raise AttributeError
            <-> parse_prometheus_body float_of_string data
                = Raise AttributeError).
  { unfold _parse_prometheus_value.
    destruct (parse_prometheus_body float_of_string data) as [a|[]];
      split; congruence. }
  rewrite Hhandler. unfold parse_prometheus_body.
  destruct data as [| | | | | |fields];
    try (split; [intros _; left; reflexivity | reflexivity]).
  cbn [py_get is_dict].
  destruct (lookup "data" fields) as [x|] eqn:Ex; cbn [bind].
  - destruct x as [| | | | | |dfs];
      try (split; [intros _; right; exists fields; eexists;
                   repeat split; [exact Ex | reflexivity]
                  | reflexivity]).
    cbn [py_get].
    split.
    + intros H. exfalso.
      destruct (lookup "result" dfs) as [r|]; cbn [bind] in H;
        [destruct (truthy r) | cbn [truthy] in H];
        try discriminate; exact (Htail JNull JNull H).
    + intros [H | (fs & y & Hfs & Hy & Hd)]; [discriminate|].
      injection Hfs as <-. rewrite Ex in Hy. injection Hy as <-. discriminate.
  - cbn [py_get lookup bind truthy]. split; [discriminate|].
    intros [H | (fs & y & Hfs & Hy & _)]; [discriminate|].
    injection Hfs as <-. congruence.
Qed.

End PrometheusFacts.

(** ** The deployment report *)

Lemma Qgeb_compat (y a b : Q) : a == b -> Qgeb y a = Qgeb y b.
Proof.
  intros Hab. destruct (Qgeb y a) eqn:Ea, (Qgeb y b) eqn:Eb; try reflexivity.
  - apply Qgeb_le in Ea. rewrite Hab in Ea. apply Qgeb_le in Ea. congruence.
  - apply Qgeb_le in Eb. rewrite <- Hab in Eb. apply Qgeb_le in Eb. congruence.
Qed.

(** [round(x, 1)] does not cross a multiple of 0.1. *)
Lemma round1_lower (k : Z) (x : Q) : k # 10 <= x -> k # 10 <= Report.round1 x.
Proof.
  intros H. unfold Report.round1. rewrite Qred_correct.
  destruct x as [n d]. unfold Qle in H. cbn [Qnum Qden] in *.
  assert (Hr : (k <= round_half_even (n * 10) (Z.pos d))%Z)
    by (apply round_half_even_lower; lia).
  unfold Qle, Qdiv, Qmult, Qinv, inject_Z. cbn [Qnum Qden]. lia.
Qed.

Lemma round1_upper (k : Z) (x : Q) : x <= k # 10 -> Report.round1 x <= k # 10.
Proof.
  intros H. unfold Report.round1. rewrite Qred_correct.
  destruct x as [n d]. unfold Qle in H. cbn [Qnum Qden] in *.
  assert (Hr : (round_half_even (n * 10) (Z.pos d) <= k)%Z)
    by (apply round_half_even_upper; lia).
  unfold Qle, Qdiv, Qmult, Qinv, inject_Z. cbn [Qnum Qden]. lia.
Qed.

Lemma coverage_score_bounds (c : Q) :
  Report.coverage_score c <= 100
  /\ (0 <= c -> 0 <= Report.coverage_score c)
  /\ (8 # 10 <= c -> 80 <= Report.coverage_score c)
  /\ (1 <= c -> Report.coverage_score c = 100).
Proof.
  unfold Report.coverage_score, py_min.
  destruct (Qgtb (Qred (c * 100)) 100) eqn:E.
  - apply Qgtb_lt in E. rewrite Qred_correct in E.
    repeat split; intros; try reflexivity; lra.
  - apply Qgtb_le in E. pose proof E as E'. rewrite Qred_correct in E'.
    repeat split; intros; rewrite ?Qred_correct; try lra.
    assert (Heq : c * 100 == 100) by lra.
    rewrite (Qred_complete _ _ Heq). reflexivity.
Qed.

Lemma weighted_score_value (q s : Z) (c : Q) :
  Report.weighted_score q s c
  == inject_Z q * (3 # 10) + inject_Z s * (4 # 10)
     + Report.coverage_score c * (3 # 10).
Proof.
  unfold Report.weighted_score, Report.weight_quality, Report.weight_security,
    Report.weight_coverage.
  rewrite !Qred_correct. reflexivity.
Qed.

Lemma report_gates_pass (quality security : Z) (coverage : Q) :
  Report.overall_status (Report.evaluate_quality_gates quality security coverage)
  = "PASS" ->
  (70 <= quality)%Z /\ (80 <= security)%Z /\ 8 # 10 <= coverage.
Proof.
  cbn. rewrite <- (Qgeb_le coverage (8 # 10)), <- !Z.leb_le.
  destruct (70 <=? quality)%Z, (80 <=? security)%Z, (Qgeb coverage (8 # 10));
    cbn; try discriminate; intros _; repeat split.
Qed.

(** X17: the overall status of the quality gates is 'PASS' exactly when
    the quality score is at least 70, the security score at least 80 and
    the coverage at least 0.8, which is exactly when the count of passed
    gates reaches the total count, 3. *)
Theorem report_quality_gates (quality security : Z) (coverage : Q) :
  let g := Report.evaluate_quality_gates quality security coverage in
  (Report.overall_status g = "PASS"
   <-> (70 <= quality)%Z /\ (80 <= security)%Z /\ 8 # 10 <= coverage)
  /\ (Report.passed_count g = Report.total_count g
      <-> Report.overall_status g = "PASS")
  /\ Report.total_count g = 3%nat
  /\ (Report.passed_count g <= 3)%nat.
Proof.
  cbn. rewrite <- (Qgeb_le coverage (8 # 10)), <- !Z.leb_le.
  destruct (70 <=? quality)%Z, (80 <=? security)%Z, (Qgeb coverage (8 # 10));
    cbn; repeat split; try discriminate; try lia; try tauto;
    intros (? & ? & ?); discriminate.
Qed.

(** X18: the next steps read the rounded score and the status the exact
    one, and rounding never lowers the advice: an 'EXCELLENT' health gets
    the steps of an approval for excellent metrics, a 'GOOD' health those
    of an approval, and the steps of a blocked deployment come only with a
    'POOR' or 'CRITICAL' health. *)
Theorem report_next_steps_follow_status (quality security : Z) (coverage : Q) :
  let h := Report.calculate_deployment_health quality security coverage in
  let first := hd "" (Report.generate_next_steps h) in
  (Report.status h = "EXCELLENT" ->
   first = "✅ Deployment approved - excellent quality metrics")
  /\ (Report.status h = "GOOD" ->
      first = "✅ Deployment approved - excellent quality metrics"
      \/ first = "✅ Deployment approved - good quality metrics")
  /\ (first = "❌ Deployment blocked - quality threshold not met" ->
      Report.status h = "POOR" \/ Report.status h = "CRITICAL").
Proof.
  intros h first. subst first h.
  unfold Report.calculate_deployment_health, Report.generate_next_steps.
  set (x := Report.weighted_score quality security coverage).
  assert (Hup : forall k : Z,
             Qgeb x (k # 10) = true -> Qgeb (Report.round1 x) (k # 10) = true).
  { intros k H. apply Qgeb_le. apply Qgeb_le in H. now apply round1_lower. }
  assert (E90 : forall y, Qgeb y 90 = Qgeb y (900 # 10))
    by (intros; apply Qgeb_compat; reflexivity).
  assert (E80 : forall y, Qgeb y 80 = Qgeb y (800 # 10))
    by (intros; apply Qgeb_compat; reflexivity).
  assert (E70 : forall y, Qgeb y 70 = Qgeb y (700 # 10))
    by (intros; apply Qgeb_compat; reflexivity).
  rewrite !E90, !E80, !E70.
  destruct (Qgeb x (900 # 10)) eqn:X90.
  { cbn [Report.overall_score Report.status]. rewrite (Hup 900%Z X90).
    cbn [hd]. repeat split; intros; try discriminate; auto. }
  destruct (Qgeb x (800 # 10)) eqn:X80.
  { cbn [Report.overall_score Report.status]. pose proof (Hup 800%Z X80) as R80.
    destruct (Qgeb (Report.round1 x) (900 # 10)); [|rewrite R80];
      cbn [hd]; repeat split; intros; try discriminate; auto. }
  destruct (Qgeb x (700 # 10)) eqn:X70.
  { cbn [Report.overall_score Report.status]. pose proof (Hup 700%Z X70) as R70.
    destruct (Qgeb (Report.round1 x) (900 # 10));
      [|destruct (Qgeb (Report.round1 x) (800 # 10)); [|rewrite R70]];
      cbn [hd]; repeat split; intros; try discriminate; auto. }
  destruct (Qgeb x 60);
    cbn [Report.overall_score Report.status];
    repeat split; intros; try discriminate; auto.
Qed.


(** X20: no immediate recommendation is made exactly when quality is at
    least 70, security at least 80 and coverage at least 0.7, hence
    whenever the quality gates pass; the long-term list always ends with
    the four general improvements. *)
Theorem report_immediate_recommendations
    (quality security : Z) (coverage : Q) :
  let r := Report.generate_recommendations quality security coverage in
  (Report.immediate r = []
   <-> (70 <= quality)%Z /\ (80 <= security)%Z /\ 7 # 10 <= coverage)
  /\ (Report.overall_status
        (Report.evaluate_quality_gates quality security coverage) = "PASS" ->
      Report.immediate r = [])
  /\ exists specific,
       Report.long_term r = (specific ++ Report.general_improvements)%list.
Proof.
  intros r.
  assert (Hiff : Report.immediate r = []
                 <-> (70 <= quality)%Z /\ (80 <= security)%Z
                     /\ 7 # 10 <= coverage).
  { subst r. unfold Report.generate_recommendations.
    rewrite <- (Qgtb_le (7 # 10) coverage).
    destruct (quality <? 70)%Z eqn:Eq, (quality <? 85)%Z,
      (security <? 80)%Z eqn:Es, (security <? 90)%Z,
      (Qgtb (7 # 10) coverage) eqn:Ec, (Qgtb (9 # 10) coverage);
      cbn; try apply Z.ltb_lt in Eq; try apply Z.ltb_ge in Eq;
      try apply Z.ltb_lt in Es; try apply Z.ltb_ge in Es;
      split; try discriminate; try (intros (? & ? & ?); try discriminate; lia);
      try (intros _; repeat split; try reflexivity; lia). }
  split; [exact Hiff|]. split.
  - intros Hpass. apply Hiff.
    destruct (report_gates_pass quality security coverage Hpass) as (? & ? & ?).
    repeat split; try assumption. lra.
  - subst r. unfold Report.generate_recommendations.
    cbn [Report.long_term]. eexists. reflexivity.
Qed.

(** X21: for scores between 0 and 100 and a coverage that is not
    negative, the health score lies between 0 and 100; coverage is capped:
    a coverage above 1 weighs as a coverage of 1. *)
Theorem report_score_bounds (quality security : Z) (coverage : Q) :
  (0 <= quality <= 100)%Z ->
  (0 <= security <= 100)%Z ->
  0 <= coverage ->
  let h := Report.calculate_deployment_health quality security coverage in
  0 <= Report.overall_score h /\ Report.overall_score h <= 100
  /\ (1 <= coverage ->
      Report.weighted_score quality security coverage
      = Report.weighted_score quality security 1).
Proof.
  intros [Hq0 Hq1] [Hs0 Hs1] Hc h.
  set (x := Report.weighted_score quality security coverage).
  assert (Hscore : Report.overall_score h = Report.round1 x).
  { subst h. unfold Report.calculate_deployment_health. fold x.
    destruct (Qgeb x 90); [reflexivity|].
    destruct (Qgeb x 80); [reflexivity|].
    destruct (Qgeb x 70); [reflexivity|].
    destruct (Qgeb x 60); reflexivity. }
  destruct (coverage_score_bounds coverage) as (Hc1 & Hc0 & _ & Hcap).
  specialize (Hc0 Hc).
  rewrite Zle_Qle in Hq0, Hq1, Hs0, Hs1.
  change (inject_Z 0) with 0 in *. change (inject_Z 100) with 100 in *.
  pose proof (weighted_score_value quality security coverage) as Hx. fold x in Hx.
  rewrite Hscore. split; [|split].
  - setoid_replace 0 with (0 # 10) by reflexivity. apply round1_lower.
    setoid_replace (0 # 10) with 0 by reflexivity. lra.
  - setoid_replace 100 with (1000 # 10) by reflexivity. apply round1_upper.
    setoid_replace (1000 # 10) with 100 by reflexivity. lra.
  - intros H1. unfold x, Report.weighted_score.
    rewrite (Hcap H1).
    destruct (coverage_score_bounds 1) as (_ & _ & _ & Hcap1).
    rewrite (Hcap1 ltac:(lra)). reflexivity.
Qed.

(** X22: a deployment type that is none of 'blue-green', 'canary' and
    'rolling' gets the estimated duration of 'blue-green', the default of
    the lookup, and none of the flags: not zero-downtime, not blue-green,
    not canary, not progressive. *)
Theorem report_unknown_deployment_type (deployment_type : string) :
  deployment_type <> "blue-green" ->
  deployment_type <> "canary" ->
  deployment_type <> "rolling" ->
  let s := Report.generate_deployment_summary deployment_type in
  Report.estimated_duration s = Report.get_deployment_duration "blue-green"
  /\ Report.zero_downtime s = false
  /\ Report.blue_green s = false
  /\ Report.canary s = false
  /\ Report.progressive s = false.
Proof.
  intros Hb Hc Hr.
  apply String.eqb_neq in Hb, Hc, Hr.
  unfold Report.generate_deployment_summary, Report.get_deployment_duration.
  cbn [Report.estimated_duration Report.zero_downtime Report.blue_green
       Report.canary Report.progressive].
  rewrite Hb, Hc, Hr. repeat split; reflexivity.
Qed.

(** ** The run when the main service stands in for the canary *)




Section Fallback.
Context {fmt : NumberFormat}.




End Fallback.

(** ** More concrete runs *)

(** X1 at scenario B: the error rate 0.02 is above the threshold 0.01. *)
Lemma error_rate_above_threshold_rolls_back_witness :
  average (recent 0 (canary_metrics scenario_B)) = Some (mkAverages (1 # 50) 450 100)
  /\ average (recent 0 (stable_metrics scenario_B))
     = Some (mkAverages (1 # 500) 400 100)
  /\ error_threshold scenario_B < 1 # 50
  /\ exists more a,
       @analyze_canary_performance decimal_format scenario_B 0
       = Some (false, "Error rate 0.0200 exceeds threshold 0.01" ++ more, Some a).
Proof.
  split; [reflexivity|]. split; [reflexivity|]. split; [reflexivity|].
  destruct (@error_rate_above_threshold_rolls_back decimal_format scenario_B 0
              (mkAverages (1 # 50) 450 100) (mkAverages (1 # 500) 400 100)
              eq_refl eq_refl eq_refl) as [more H].
  exists more. eexists. exact H.
Defined.

(** X2 from the default thresholds to laxer ones, on the same stores. *)
Lemma laxer_thresholds_keep_continue_witness :
  error_threshold healthy <= error_threshold lenient
  /\ (latency_threshold healthy <= latency_threshold lenient)%Z
  /\ success_threshold lenient <= success_threshold healthy
  /\ exists reason a,
       @analyze_canary_performance decimal_format lenient 0
       = Some (true, reason, a).
Proof.
  split; [discriminate|]. split; [discriminate|]. split; [discriminate|].
  destruct (@laxer_thresholds_keep_continue decimal_format healthy lenient 0
              "All metrics within thresholds (success rate: 0.995)"
              (snd (@make_decision decimal_format healthy
                      (mkAnalysis (mkAverages (1 # 200) 450 100)
                         (mkAverages (1 # 250) (855 # 2) 100)
                         (compare_averages (mkAverages (1 # 200) 450 100)
                            (mkAverages (1 # 250) (855 # 2) 100)))))
              eq_refl eq_refl ltac:(discriminate) ltac:(discriminate)
              ltac:(discriminate) ltac:(vm_compute; reflexivity))
    as [reason H].
  exists reason. eexists. exact H.
Defined.

(** X3 at scenario A: the binary64 difference 1 - 0.01 is the binary64
    value of 0.99. *)
Lemma success_check_is_redundant_witness :
  round64 (success_threshold scenario_A)
  <= float_sub 1 (error_threshold scenario_A)
  /\ exists a,
       @analyze_canary_performance decimal_format scenario_A 0
       = Some (false, "Error rate is 2.5x higher than stable", Some a)
       /\ (false = true <-> @decision_reasons decimal_format scenario_A a = []).
Proof.
  assert (H : round64 (success_threshold scenario_A)
              <= float_sub 1 (error_threshold scenario_A))
    by (apply Qle_bool_iff; vm_compute; reflexivity).
  split; [exact H|].
  eexists. split; [vm_compute; reflexivity|].
  apply (@success_check_is_redundant decimal_format scenario_A 0 false
           "Error rate is 2.5x higher than stable" _ H).
  vm_compute; reflexivity.
Defined.

(** Where the hypothesis of X3 fails although the thresholds add up to 1:
    at 0.07 and 0.93 no condition is violated by a canary mean of 0.07,
    and the binary64 difference 1 - 0.07 = 0.9299999999999999 is below
    the threshold. *)
Lemma success_rate_rounds_below_threshold :
  success_threshold at_the_boundary + error_threshold at_the_boundary == 1
  /\ float_sub 1 (error_threshold at_the_boundary)
     < round64 (success_threshold at_the_boundary)
  /\ exists a,
       @analyze_canary_performance decimal_format at_the_boundary 0
       = Some (false, "Success rate 0.930 below threshold 0.93", Some a)
       /\ @decision_reasons decimal_format at_the_boundary a = [].
Proof.
  split; [reflexivity|].
  split; [vm_compute; reflexivity|].
  eexists. split; [vm_compute; reflexivity|].
  vm_compute. reflexivity.
Qed.

(** X5: the two samples that are ten minutes old change nothing. *)
Lemma stale_samples_do_not_count_witness :
  canary_metrics healthy = recent 0 (canary_metrics with_stale_samples)
  /\ stable_metrics healthy = recent 0 (stable_metrics with_stale_samples)
  /\ @analyze_canary_performance decimal_format healthy 0
     = @analyze_canary_performance decimal_format with_stale_samples 0.
Proof.
  split; [reflexivity|]. split; [reflexivity|].
  exact (@stale_samples_do_not_count decimal_format with_stale_samples healthy 0
           eq_refl eq_refl eq_refl eq_refl eq_refl eq_refl eq_refl).
Defined.




(** X14 at the reply to an instant query with the sample "0.0125". *)
Lemma parse_prometheus_value_reads_first_sample_witness :
  _parse_prometheus_value read_numeral (vector_body "0.0125")
  = Value (125 # 10000).
Proof.
  unfold vector_body.
  eapply parse_prometheus_value_reads_first_sample; reflexivity.
Defined.

(** X15 at no reply, a reply with status 500 and a reply that is not
    JSON. *)
Lemma failed_queries_read_as_zero_witness :
  query_fails QueryRaised = true
  /\ query_fails (QueryReplied 500 (Some (vector_body "0.25"))) = true
  /\ query_fails (QueryReplied 200 None) = true
  /\ get_service_metrics read_numeral QueryRaised
       (QueryReplied 500 (Some (vector_body "0.25"))) (QueryReplied 200 None) 7
     = Value {| sm_error_rate := 0; sm_p95_latency := 0;
                sm_request_rate := 0; sm_timestamp := 7 |}.
Proof.
  repeat (split; [reflexivity|]).
  exact (failed_queries_read_as_zero read_numeral QueryRaised
           (QueryReplied 500 (Some (vector_body "0.25"))) (QueryReplied 200 None)
           7 eq_refl eq_refl eq_refl).
Defined.

(** X21 at quality 85, security 90 and a coverage of 1.2. *)
Lemma report_score_bounds_witness :
  (0 <= 85 <= 100)%Z /\ (0 <= 90 <= 100)%Z /\ 0 <= 12 # 10
  /\ Report.overall_score (Report.calculate_deployment_health 85 90 (12 # 10))
     <= 100
  /\ Report.weighted_score 85 90 (12 # 10) = Report.weighted_score 85 90 1.
Proof.
  split; [lia|]. split; [lia|]. split; [discriminate|].
  destruct (report_score_bounds 85 90 (12 # 10) ltac:(lia) ltac:(lia)
              ltac:(discriminate)) as (_ & Hle & Hcap).
  split; [exact Hle | apply Hcap; discriminate].
Defined.

(** X22 at the deployment type 'recreate'. *)
Lemma report_unknown_deployment_type_witness :
  Report.estimated_duration (Report.generate_deployment_summary "recreate")
  = "15-20 minutes"
  /\ Report.zero_downtime (Report.generate_deployment_summary "recreate") = false.
Proof.
  destruct (report_unknown_deployment_type "recreate"
              ltac:(discriminate) ltac:(discriminate) ltac:(discriminate))
    as (Hd & Hz & _).
  split; [exact Hd | exact Hz].
Defined.


(** X24: a higher security score never reports more issues, and the
    assessment agrees with the security gate: a score that passes the gate
    (at least 80) shows one high issue and a PCI DSS status of 'PARTIAL',
    a score that fails it shows three high issues, one critical issue and
    'NON_COMPLIANT'; no score is reported as PCI DSS 'COMPLIANT'. *)
Theorem report_security_assessment (score score' quality : Z) (coverage : Q) :
  let a := Report.generate_security_assessment score in
  let a' := Report.generate_security_assessment score' in
  ((score <= score')%Z ->
   (Report.critical_issues a' <= Report.critical_issues a)%Z
   /\ (Report.high_issues a' <= Report.high_issues a)%Z)
  /\ (Report.passed
        (Report.security_scan (Report.evaluate_quality_gates quality score coverage)) = true ->
      Report.high_issues a = 1%Z /\ Report.pci_dss a = "PARTIAL")
  /\ (Report.passed
        (Report.security_scan (Report.evaluate_quality_gates quality score coverage)) = false ->
      Report.high_issues a = 3%Z /\ Report.critical_issues a = 1%Z
      /\ Report.pci_dss a = "NON_COMPLIANT")
  /\ Report.pci_dss a <> "COMPLIANT".
Proof.
  cbn.
  destruct (90 <=? score)%Z eqn:E90, (80 <=? score)%Z eqn:E80,
    (90 <=? score')%Z eqn:E90', (80 <=? score')%Z eqn:E80';
    repeat split; intros; try discriminate; try reflexivity; try lia.
Qed.
